(** * saas-pricing-mcp: the tool handlers of [src/index.ts]

    A shallow embedding of the three tool handlers of the MCP server
    ([extract_saas_pricing], [compare_saas_pricing], [discover_pricing_page])
    and of the comparison built by [compare_saas_pricing].

    Modelling decisions.
    - Dataset items are JSON objects of the shape the handlers read:
      every field the code reads may be absent ([undefined]), which is
      [None]; [item.tiers], when present, is an array of tier objects.
    - JavaScript numbers are kept abstract (class [JSNumber]): the handlers
      only subtract, multiply, compare with [<] and test truthiness.  The
      facts about IEEE-754 doubles the proofs rely on are the fields of
      [JSNumberLaws]; they are stated for strictly positive numbers, where
      they hold for doubles (including [+Infinity]).  [QNum] is an
      instance on exact rationals extended with [NaN].
    - The objects of [comparison.products] live in a heap and are named by
      locations: [summary.cheapest] and [summary.mostExpensive] hold
      locations, [forEach] updates the heap, and [JSON.stringify] reads
      the heap through the locations.
    - [Array.prototype.sort] is a stable sort (ECMAScript 2019); it is
      modelled by a stable insertion sort driven by the sign of the
      comparator's result.  The handler sorts strictly positive prices
      only, on which its comparators are consistent, so the sorted order
      does not depend on the algorithm.
    - The remote actor is an oracle from the request to either the items
      of the run's dataset or a failure message.
    - The comparison is first modelled on records ([compare],
      [call_tool]).  [Server] is the handler on any dataset: its items may
      be [null], their [tiers] may be a value that is not an array or
      hold [null], and what the code throws on them reaches the [catch];
      zod's test of a number is a parameter there.  On records the two
      handlers agree ([call_tool_refines]). *)

From Stdlib Require Import QArith Lqa Sorted.
From stdpp Require Import base option list strings.
Close Scope Q_scope.

(** ** JavaScript numbers *)

(** The operations of the Number type used by the handlers. *)
Class JSNumber (num : Type) : Type := {
  NaN : num;
  num_0 : num;                      (* the literal [0] *)
  num_12 : num;                     (* the literal [12] *)
  nsub : num -> num -> num;         (* [a - b] *)
  nmul : num -> num -> num;         (* [a * b] *)
  nlt : num -> num -> bool;         (* [a < b]; [a > b] is [nlt b a] *)
  nle : num -> num -> bool;         (* [a <= b] *)
  ToBoolean : num -> bool           (* truthiness: false on [0], [-0], [NaN] *)
}.

(** [x > 0] and [x < 0]. *)
Definition positive {num : Type} `{!JSNumber num} (x : num) : bool := nlt num_0 x.
Definition negative {num : Type} `{!JSNumber num} (x : num) : bool := nlt x num_0.

(** What the proofs use of IEEE-754 arithmetic. *)
Class JSNumberLaws (num : Type) `{!JSNumber num} : Prop := {
  (* comparisons with [NaN] are false *)
  positive_NaN : positive NaN = false;
  nlt_irrefl : forall x, nlt x x = false;
  nlt_trans : forall x y z, nlt x y = true -> nlt y z = true -> nlt x z = true;
  (* strictly positive numbers are totally pre-ordered by [<] *)
  nlt_neg_trans : forall x y z,
    positive x = true -> positive y = true -> positive z = true ->
    nlt x y = false -> nlt y z = false -> nlt x z = false;
  (* the sign of a difference of strictly positive numbers; the
     difference of [+Infinity] and itself is [NaN], which is not positive *)
  nsub_positive : forall a b,
    positive a = true -> positive b = true ->
    positive (nsub a b) = nlt b a;
  (* truthiness *)
  ToBoolean_positive : forall x, positive x = true -> ToBoolean x = true;
  ToBoolean_negative : forall x, negative x = true -> ToBoolean x = true;
  ToBoolean_0 : ToBoolean num_0 = false;
  (* products: positive times negative is negative or (by underflow) zero *)
  nmul_positive_negative : forall a b,
    positive a = true -> negative b = true -> nle (nmul a b) num_0 = true;
  nmul_nonpositive_12 : forall a,
    nle a num_0 = true -> nle (nmul a num_12) num_0 = true
}.

(** Exact rationals with [NaN]: arithmetic without rounding. *)
Module QNum.

Inductive qnum : Type :=
| QNaN
| QFin (q : Q).

Definition lift2 (f : Q -> Q -> Q) (a b : qnum) : qnum :=
  match a, b with
  | QFin x, QFin y => QFin (f x y)
  | _, _ => QNaN
  end.

Definition qle (a b : qnum) : bool :=
  match a, b with
  | QFin x, QFin y => Qle_bool x y
  | _, _ => false
  end.

Definition qlt (a b : qnum) : bool :=
  match a, b with
  | QFin x, QFin y => negb (Qle_bool y x)
  | _, _ => false
  end.

Definition qtruthy (a : qnum) : bool :=
  match a with
  | QFin x => negb (Qeq_bool x 0)
  | QNaN => false
  end.

#[export] Instance qnum_number : JSNumber qnum := {|
  NaN := QNaN;
  num_0 := QFin 0;
  num_12 := QFin 12;
  nsub := lift2 Qminus;
  nmul := lift2 Qmult;
  nlt := qlt;
  nle := qle;
  ToBoolean := qtruthy
|}.

(** Integer literals. *)
Definition int (z : Z) : qnum := QFin (inject_Z z).

End QNum.

(** ** [Array.prototype.sort] *)

Section Sort.
Context {A : Type}.

(** [after x y]: [x] has to be placed after [y]. *)
Variable after : A -> A -> bool.

Fixpoint sort_insert (x : A) (l : list A) : list A :=
  match l with
  | [] => [x]
  | y :: l' => if after x y then y :: sort_insert x l' else x :: y :: l'
  end.

(** Stable: an element is moved only behind elements it has to follow. *)
Definition sort_by (l : list A) : list A := foldr sort_insert [] l.

(** The first element nothing has to precede, scanning from the right. *)
Definition pick (x : A) (acc : option A) : option A :=
  match acc with
  | None => Some x
  | Some y => if after x y then Some y else Some x
  end.

(** The converse of [after]. *)
Definition before (x y : A) : bool := after y x.

End Sort.

(** [arr.sort(comparefn)]: [a] goes after [b] when [comparefn(a, b) > 0];
    a [NaN] result counts as [0]. *)
Definition sort {num : Type} `{!JSNumber num} {A : Type}
    (comparefn : A -> A -> num) (l : list A) : list A :=
  sort_by (fun a b => positive (comparefn a b)) l.

(** ** The data model of the dataset items *)

Section Model.
Context {num : Type} `{!JSNumber num}.

(** [t.pricing] *)
Record Pricing : Type := {
  type : option string;
  perUnit : option string
}.

(** An element of [item.tiers]. *)
Record Tier : Type := {
  name : option string;
  pricing : option Pricing;
  normalizedMonthlyPrice : option num;
  features : option (list string)
}.

(** A dataset item. *)
Record ExtractionRecord : Type := {
  productName : option string;
  url : option string;
  tiers : option (list Tier)
}.

(** An element of [p.estimatedTeamCost]. *)
Record TeamCost : Type := {
  tier : option string;
  monthly : num;
  yearly : num
}.

(** An element of [comparison.products].  [estimatedTeamCost] is [None]
    until it is assigned, and when it is assigned [undefined]:
    [JSON.stringify] omits the key in both cases. *)
Record Product : Type := {
  p_name : option string;
  p_url : option string;
  tierCount : nat;
  hasFreeTier : option bool;
  lowestPaidPrice : option num;
  p_tiers : option (list Tier);
  estimatedTeamCost : option (list TeamCost)
}.

(** ** Expressions of the handler *)

(** [ToNumber] of a number or [undefined]. *)
Definition ToNumber (x : option num) : num :=
  match x with
  | Some n => n
  | None => NaN
  end.

(** Truthiness of a number or [undefined]. *)
Definition truthy (x : option num) : bool :=
  match x with
  | Some n => ToBoolean n
  | None => false
  end.

(** [n || 0] for an array length or [undefined]. *)
Definition or_0 (x : option nat) : nat :=
  match x with
  | Some n => if Nat.eqb n 0 then 0 else n
  | None => 0
  end.

(** [t.pricing?.type === "free"] *)
Definition is_free (t : Tier) : bool :=
  match pricing t with
  | Some p =>
      match type p with
      | Some s => String.eqb s "free"
      | None => false
      end
  | None => false
  end.

(** [t.pricing?.perUnit === "user"] *)
Definition is_per_user (t : Tier) : bool :=
  match pricing t with
  | Some p =>
      match perUnit p with
      | Some s => String.eqb s "user"
      | None => false
      end
  | None => false
  end.

(** [t.normalizedMonthlyPrice > 0] *)
Definition is_paid (t : Tier) : bool :=
  positive (ToNumber (normalizedMonthlyPrice t)).

(** [(a, b) => a.normalizedMonthlyPrice - b.normalizedMonthlyPrice] *)
Definition by_price (a b : Tier) : num :=
  nsub (ToNumber (normalizedMonthlyPrice a)) (ToNumber (normalizedMonthlyPrice b)).

(** [item.tiers?.filter(...)?.sort(...)[0]?.normalizedMonthlyPrice];
    [filter] returns a fresh array, so [item.tiers] is not reordered. *)
Definition lowest_paid_price (ts : option (list Tier)) : option num :=
  match ts with
  | Some l =>
      match head (sort by_price (List.filter is_paid l)) with
      | Some t => normalizedMonthlyPrice t
      | None => None
      end
  | None => None
  end.

(** The object literal of [items.map((item) => ({ ... }))]. *)
Definition product_of (item : ExtractionRecord) : Product := {|
  p_name := productName item;
  p_url := url item;
  tierCount := or_0 (length <$> tiers item);
  hasFreeTier := existsb is_free <$> tiers item;
  lowestPaidPrice := lowest_paid_price (tiers item);
  p_tiers := tiers item;
  estimatedTeamCost := None
|}.

(** ** The heap of product objects *)

Abbreviation loc := nat (only parsing).
Abbreviation heap := (list Product) (only parsing).

Definition alloc (p : Product) (h : heap) : loc * heap :=
  (length h, h ++ [p]).

(** [items.map(f)], every call of [f] allocating its result. *)
Fixpoint alloc_map (items : list ExtractionRecord) (h : heap) : list loc * heap :=
  match items with
  | [] => ([], h)
  | item :: rest =>
      let '(l, h1) := alloc (product_of item) h in
      let '(ls, h2) := alloc_map rest h1 in
      (l :: ls, h2)
  end.

(** [p.lowestPaidPrice], [p.hasFreeTier] and [p.name] through a reference. *)
Definition price_at (h : heap) (l : loc) : option num :=
  h !! l ≫= lowestPaidPrice.

Definition free_at (h : heap) (l : loc) : bool :=
  match h !! l ≫= hasFreeTier with
  | Some b => b
  | None => false
  end.

Definition name_at (h : heap) (l : loc) : option string :=
  h !! l ≫= p_name.

(** [(a, b) => a.lowestPaidPrice - b.lowestPaidPrice] and its converse. *)
Definition ascending (h : heap) (a b : loc) : num :=
  nsub (ToNumber (price_at h a)) (ToNumber (price_at h b)).

Definition descending (h : heap) (a b : loc) : num :=
  nsub (ToNumber (price_at h b)) (ToNumber (price_at h a)).

(** [comparison]: the products array and the summary hold references. *)
Record Comparison : Type := {
  products : list loc;
  cheapest : option loc;
  mostExpensive : option loc;
  withFreeTier : list (option string)
}.

(** The element of [p.estimatedTeamCost] for tier [t]:
    [t.normalizedMonthlyPrice * teamSize * 12] associates to the left. *)
Definition team_cost (teamSize : num) (t : Tier) : TeamCost := {|
  tier := name t;
  monthly := nmul (ToNumber (normalizedMonthlyPrice t)) teamSize;
  yearly := nmul (nmul (ToNumber (normalizedMonthlyPrice t)) teamSize) num_12
|}.

(** [p.estimatedTeamCost = p.tiers?.filter(...)?.map(...)] *)
Definition assign_team_cost (teamSize : num) (p : Product) : Product := {|
  p_name := p_name p;
  p_url := p_url p;
  tierCount := tierCount p;
  hasFreeTier := hasFreeTier p;
  lowestPaidPrice := lowestPaidPrice p;
  p_tiers := p_tiers p;
  estimatedTeamCost :=
    (fun ts => team_cost teamSize <$> List.filter is_per_user ts) <$> p_tiers p
|}.

(** [comparison.products.forEach(p => { p.estimatedTeamCost = ... })] *)
Definition forEach_team_cost (teamSize : num) (ps : list loc) (h : heap) : heap :=
  foldl (fun h l => alter (assign_team_cost teamSize) l h) h ps.

(** The body of the [compare_saas_pricing] case after [listItems]:
    the comparison and the heap its references point into. *)
Definition compare (items : list ExtractionRecord) (teamSize : option num)
    : Comparison * heap :=
  let '(ps, h) := alloc_map items [] in
  let paidProducts := List.filter (fun p => truthy (price_at h p)) ps in
  (* the first sort reorders [paidProducts] in place, the second one
     starts from that order *)
  let paidProducts1 := sort (ascending h) paidProducts in
  let paidProducts2 := sort (descending h) paidProducts1 in
  let c := {|
    products := ps;
    cheapest :=
      if 0 <? length paidProducts then head paidProducts1 else None;
    mostExpensive :=
      if 0 <? length paidProducts then head paidProducts2 else None;
    withFreeTier := name_at h <$> List.filter (free_at h) ps
  |} in
  let h' :=
    if truthy teamSize
    then forEach_team_cost (ToNumber teamSize) ps h
    else h in
  (c, h').

(** ** Least and greatest price, first occurrence *)

(** Product [i] has a price, no product has a lower one, and the priced
    products before it have a higher one. *)
Definition first_cheapest (h : heap) (i : loc) : Prop :=
  exists v, price_at h i = Some v /\
    (forall k w, price_at h k = Some w -> nlt w v = false) /\
    (forall k w, k < i -> price_at h k = Some w -> nlt v w = true).

(** Product [j] has a price, no product has a higher one, and the priced
    products before it have a lower one. *)
Definition first_most_expensive (h : heap) (j : loc) : Prop :=
  exists v, price_at h j = Some v /\
    (forall k w, price_at h k = Some w -> nlt v w = false) /\
    (forall k w, k < j -> price_at h k = Some w -> nlt w v = true).

(** ** [JSON.stringify(comparison)] *)

(** The value that is printed: references are followed, so an object
    reachable twice is printed twice, in its state at that time. *)
Record ComparisonResult : Type := {
  r_products : list Product;
  r_cheapest : option Product;
  r_mostExpensive : option Product;
  r_withFreeTier : list (option string)
}.

Definition stringify (ch : Comparison * heap) : ComparisonResult :=
  let '(c, h) := ch in {|
    r_products := omap (fun l => h !! l) (products c);
    r_cheapest := cheapest c ≫= (fun l => h !! l);
    r_mostExpensive := mostExpensive c ≫= (fun l => h !! l);
    r_withFreeTier := withFreeTier c
  |}.

Definition compare_result (items : list ExtractionRecord) (teamSize : option num)
    : ComparisonResult :=
  stringify (compare items teamSize).

End Model.

Abbreviation loc := nat (only parsing).
Abbreviation heap := (list Product) (only parsing).

(** ** Dataset items as they arrive *)

(** The handlers receive whatever the dataset holds.  The shapes on which
    the code of [compare_saas_pricing] throws are kept apart from the
    records above: a [null] item, a [tiers] that is neither absent nor an
    array, and a [null] element of [tiers]. *)

(** An element of a [tiers] array: [null] or an object.  (A number, a
    string, a boolean or an array has none of the properties that are
    read and behaves as an object without them.) *)
Inductive TierEntry {num : Type} : Type :=
| NullTier
| TierObject (t : @Tier num).
Arguments TierEntry : clear implicits.

(** [item.tiers]: absent ([undefined] or [null], where [?.] stops), an
    array, or another value, which has no [some] method. *)
Inductive TiersValue {num : Type} : Type :=
| TiersAbsent
| TiersArray (l : list (TierEntry num))
| TiersOther.
Arguments TiersValue : clear implicits.

(** An element of [items]: [null] or an object (a value of another type
    behaves as an object without the properties that are read). *)
Inductive Item {num : Type} : Type :=
| NullItem
| ItemObject (i_productName : option string) (i_url : option string)
    (i_tiers : TiersValue num).
Arguments Item : clear implicits.

(** A record as a dataset item. *)
Definition item_of {num : Type} (r : @ExtractionRecord num) : Item num :=
  ItemObject (productName r) (url r)
    match tiers r with
    | Some l => TiersArray (TierObject <$> l)
    | None => TiersAbsent
    end.

(** ** The tool handlers *)

(** Tool arguments as they arrive: decoded JSON, not yet validated. *)
#[warnings="-register-all"]
Inductive value {num : Type} : Type :=
| VUndefined
| VNull
| VBoolean (b : bool)
| VNumber (n : num)
| VString (s : string)
| VArray (l : list value)
| VObject (fields : list (string * value)).
Arguments value : clear implicits.

(** What the [catch] of the request handler can receive. *)
Inductive Failure : Type :=
| ValidationError                      (* thrown by a schema's [parse] *)
| ExtractionError (message : string)    (* thrown by the Apify client *)
| TypeError.                            (* thrown while the response is built *)

Inductive result (A : Type) : Type :=
| Ok (a : A)
| Throw (e : Failure).
Arguments Ok {A} a.
Arguments Throw {A} e.

(** The outcome of a call of the Apify client: a value or a thrown error
    with its message. *)
Inductive remote (A : Type) : Type :=
| Done (a : A)
| Failed (message : string).
Arguments Done {A} a.
Arguments Failed {A} message.

(** [{ url }] *)
Record Seed : Type := { seed_url : string }.

(** The input object of an actor call; a key that is not written is [None]. *)
Record ActorInput : Type := {
  startUrls : list Seed;
  proxyTier : option string;
  extractFeatures : option bool;
  normalizePricing : option bool;
  maxRequestsPerCrawl : option nat;
  discoverPricingPage : option bool
}.

(** [run] *)
Record Run : Type := { defaultDatasetId : string }.

(** Calls of the Apify client, in the order they are made. *)
Inductive Event : Type :=
| ActorCall (actor : string) (input : ActorInput)
| DatasetListItems (id : string).

Definition ACTOR_ID : string := "apricot_blackberry/saas-pricing-intelligence".

(** The validated inputs. *)
Record ExtractPricing : Type := {
  e_urls : list string;
  e_proxyTier : string;
  e_extractFeatures : bool
}.

Record ComparePricing {num : Type} : Type := {
  c_urls : list string;
  c_teamSize : option num
}.
Arguments ComparePricing : clear implicits.

Record DiscoverPricing : Type := { d_url : string }.

(** The [text] of the result: JSON texts are kept as the value printed. *)
Inductive Text {num : Type} : Type :=
| JsonItems (items : list (@ExtractionRecord num))
| JsonDataset (items : list (Item num))
| JsonComparison (r : @ComparisonResult num)
| Plain (s : string)
| ErrorMessage (e : Failure).           (* [`Error: ${error.message}`] *)
Arguments Text : clear implicits.

Record ToolResult {num : Type} : Type := {
  text : Text num;
  isError : bool
}.
Arguments ToolResult : clear implicits.

Section Handlers.
Context {num : Type} `{!JSNumber num}.

(** [z.string().url()]'s test of a string, from the zod library. *)
Variable is_url : string -> bool.

(** The Apify service: [actor(ACTOR_ID).call(input)] and
    [dataset(id).listItems()]. *)
Variable actor_call : ActorInput -> remote Run.
Variable listItems : string -> remote (list (@ExtractionRecord num)).

(** [args.key] on an object. *)
Fixpoint get (fields : list (string * value num)) (key : string) : value num :=
  match fields with
  | [] => VUndefined
  | (k, v) :: rest => if String.eqb k key then v else get rest key
  end.

(** [z.string().url()] *)
Definition parse_url (v : value num) : result string :=
  match v with
  | VString s => if is_url s then Ok s else Throw ValidationError
  | _ => Throw ValidationError
  end.

(** [z.array(z.string().url())]: any array, each element checked. *)
Fixpoint parse_urls (l : list (value num)) : result (list string) :=
  match l with
  | [] => Ok []
  | v :: rest =>
      match parse_url v, parse_urls rest with
      | Ok s, Ok ss => Ok (s :: ss)
      | _, _ => Throw ValidationError
      end
  end.

Definition parse_url_array (v : value num) : result (list string) :=
  match v with
  | VArray l => parse_urls l
  | _ => Throw ValidationError
  end.

(** [z.enum(["datacenter", "residential"]).default("datacenter")] *)
Definition parse_proxyTier (v : value num) : result string :=
  match v with
  | VUndefined => Ok "datacenter"
  | VString s =>
      if String.eqb s "datacenter" || String.eqb s "residential"
      then Ok s else Throw ValidationError
  | _ => Throw ValidationError
  end.

(** [z.boolean().default(true)] *)
Definition parse_extractFeatures (v : value num) : result bool :=
  match v with
  | VUndefined => Ok true
  | VBoolean b => Ok b
  | _ => Throw ValidationError
  end.

(** [z.number().optional()] on a number that zod accepts; decoded JSON
    holds no [NaN].  [Server.parse_teamSize] has zod's test of the
    number. *)
Definition parse_teamSize (v : value num) : result (option num) :=
  match v with
  | VUndefined => Ok None
  | VNumber n => Ok (Some n)
  | _ => Throw ValidationError
  end.

Definition ExtractPricingInput (args : value num) : result ExtractPricing :=
  match args with
  | VObject fields =>
      match parse_url_array (get fields "urls"),
            parse_proxyTier (get fields "proxyTier"),
            parse_extractFeatures (get fields "extractFeatures") with
      | Ok us, Ok p, Ok f =>
          Ok {| e_urls := us; e_proxyTier := p; e_extractFeatures := f |}
      | _, _, _ => Throw ValidationError
      end
  | _ => Throw ValidationError
  end.

Definition ComparePricingInput (args : value num) : result (ComparePricing num) :=
  match args with
  | VObject fields =>
      match parse_url_array (get fields "urls"),
            parse_teamSize (get fields "teamSize") with
      | Ok us, Ok t => Ok {| c_urls := us; c_teamSize := t |}
      | _, _ => Throw ValidationError
      end
  | _ => Throw ValidationError
  end.

Definition DiscoverPricingInput (args : value num) : result DiscoverPricing :=
  match args with
  | VObject fields =>
      match parse_url (get fields "url") with
      | Ok u => Ok {| d_url := u |}
      | Throw e => Throw e
      end
  | _ => Throw ValidationError
  end.

(** The three actor inputs. *)
Definition extract_request (input : ExtractPricing) : ActorInput := {|
  startUrls := Build_Seed <$> e_urls input;
  proxyTier := Some (e_proxyTier input);
  extractFeatures := Some (e_extractFeatures input);
  normalizePricing := Some true;
  maxRequestsPerCrawl := Some (length (e_urls input) + 5);
  discoverPricingPage := None
|}.

Definition compare_request (input : ComparePricing num) : ActorInput := {|
  startUrls := Build_Seed <$> c_urls input;
  proxyTier := Some "datacenter";
  extractFeatures := Some true;
  normalizePricing := Some true;
  maxRequestsPerCrawl := None;
  discoverPricingPage := None
|}.

Definition discover_request (input : DiscoverPricing) : ActorInput := {|
  startUrls := [Build_Seed (d_url input)];
  proxyTier := None;
  extractFeatures := None;
  normalizePricing := None;
  maxRequestsPerCrawl := Some 5;
  discoverPricingPage := Some true
|}.

(** [await actor(ACTOR_ID).call(input)] then [await dataset(...).listItems()],
    with the calls made so far. *)
Definition run_actor (input : ActorInput)
    : list Event * result (list (@ExtractionRecord num)) :=
  match actor_call input with
  | Failed m => ([ActorCall ACTOR_ID input], Throw (ExtractionError m))
  | Done run =>
      ([ActorCall ACTOR_ID input; DatasetListItems (defaultDatasetId run)],
       match listItems (defaultDatasetId run) with
       | Failed m => Throw (ExtractionError m)
       | Done items => Ok items
       end)
  end.

(** The text of [discover_pricing_page]: [items[0]], then [result?.url]
    tested for truthiness. *)
Definition discover_text (items : list (@ExtractionRecord num)) (requested : string)
    : string :=
  let result := head items in
  match result ≫= url with
  | Some u =>
      if String.eqb u ""
      then "Could not find pricing page for " +:+ requested
      else "Found pricing page: " +:+ u
  | None => "Could not find pricing page for " +:+ requested
  end.

(** The [catch] clause. *)
Definition caught (e : Failure) : ToolResult num :=
  {| text := ErrorMessage e; isError := true |}.

Definition returned (t : Text num) : ToolResult num :=
  {| text := t; isError := false |}.

(** Validation, then the actor, then the response, inside [try], for a
    dataset of records, on which building the response throws nothing.
    [Server.handle] is the same on any dataset. *)
Definition handle {I : Type} (parse : result I) (request : I -> ActorInput)
    (respond : I -> list (@ExtractionRecord num) -> Text num)
    : list Event * ToolResult num :=
  match parse with
  | Throw e => ([], caught e)
  | Ok input =>
      match run_actor (request input) with
      | (trace, Throw e) => (trace, caught e)
      | (trace, Ok items) => (trace, returned (respond input items))
      end
  end.

(** The [CallToolRequestSchema] handler on datasets of records: the calls
    made and the result.  [Server.call_tool] is the handler on any
    dataset; the two agree on records ([call_tool_refines]). *)
Definition call_tool (name : string) (args : value num)
    : list Event * ToolResult num :=
  if String.eqb name "extract_saas_pricing" then
    handle (ExtractPricingInput args) extract_request
      (fun _ items => JsonItems items)
  else if String.eqb name "compare_saas_pricing" then
    handle (ComparePricingInput args) compare_request
      (fun input items => JsonComparison (compare_result items (c_teamSize input)))
  else if String.eqb name "discover_pricing_page" then
    handle (DiscoverPricingInput args) discover_request
      (fun input items => Plain (discover_text items (d_url input)))
  else
    ([], {| text := Plain ("Unknown tool: " +:+ name); isError := true |}).

(** The actor calls among the events. *)
Definition actor_calls (trace : list Event) : list ActorInput :=
  omap (fun e => match e with ActorCall _ input => Some input | _ => None end) trace.

End Handlers.

(** ** The request handler on any dataset *)

Module Server.
Section Server.
Context {num : Type} `{!JSNumber num}.

(** [z.string().url()]'s test of a string and [z.number()]'s test of a
    number, from the zod library: the latter is false on [NaN] and, from
    zod 4 on, on the infinities. *)
Variable is_url : string -> bool.
Variable is_number : num -> bool.

Variable actor_call : ActorInput -> remote Run.
Variable listItems : string -> remote (list (Item num)).

(** [z.number().optional()] *)
Definition parse_teamSize (v : value num) : result (option num) :=
  match v with
  | VUndefined => Ok None
  | VNumber n => if is_number n then Ok (Some n) else Throw ValidationError
  | _ => Throw ValidationError
  end.

Definition ComparePricingInput (args : value num) : result (ComparePricing num) :=
  match args with
  | VObject fields =>
      match parse_url_array is_url (get fields "urls"),
            parse_teamSize (get fields "teamSize") with
      | Ok us, Ok t => Ok {| c_urls := us; c_teamSize := t |}
      | _, _ => Throw ValidationError
      end
  | _ => Throw ValidationError
  end.

(** [tiers.some((t) => t.pricing?.type === "free")]: stops at the first
    free tier; [t.pricing] throws on a [null] element that is reached. *)
Fixpoint some_free (l : list (TierEntry num)) : result bool :=
  match l with
  | [] => Ok false
  | NullTier :: _ => Throw TypeError
  | TierObject t :: rest => if is_free t then Ok true else some_free rest
  end.

(** [tiers.filter((t) => t.normalizedMonthlyPrice > 0)]: every element is
    visited; [t.normalizedMonthlyPrice] throws on a [null] one. *)
Fixpoint filter_paid (l : list (TierEntry num)) : result (list (@Tier num)) :=
  match l with
  | [] => Ok []
  | NullTier :: _ => Throw TypeError
  | TierObject t :: rest =>
      match filter_paid rest with
      | Ok paid => Ok (if is_paid t then t :: paid else paid)
      | Throw e => Throw e
      end
  end.

(** The objects of an array. *)
Definition objects (l : list (TierEntry num)) : list (@Tier num) :=
  omap (fun e => match e with TierObject t => Some t | NullTier => None end) l.

(** The object literal of [items.map((item) => ({ ... }))], its
    properties evaluated in order: [item.productName] throws on a [null]
    item, [item.tiers?.some] on a [tiers] that has no such method. *)
Definition product_of (item : Item num) : result (@Product num) :=
  match item with
  | NullItem => Throw TypeError
  | ItemObject n u TiersAbsent =>
      Ok {| p_name := n; p_url := u; tierCount := or_0 None;
            hasFreeTier := None; lowestPaidPrice := None;
            p_tiers := None; estimatedTeamCost := None |}
  | ItemObject n u TiersOther => Throw TypeError
  | ItemObject n u (TiersArray l) =>
      match some_free l with
      | Throw e => Throw e
      | Ok free =>
          match filter_paid l with
          | Throw e => Throw e
          | Ok paid =>
              Ok {| p_name := n; p_url := u;
                    tierCount := or_0 (Some (length l));
                    hasFreeTier := Some free;
                    lowestPaidPrice :=
                      head (sort by_price paid) ≫= normalizedMonthlyPrice;
                    p_tiers := Some (objects l);
                    estimatedTeamCost := None |}
          end
      end
  end.

(** [items.map(...)]: the first item that throws ends the call. *)
Fixpoint products_of (items : list (Item num)) : result (list (@Product num)) :=
  match items with
  | [] => Ok []
  | item :: rest =>
      match product_of item with
      | Throw e => Throw e
      | Ok p =>
          match products_of rest with
          | Throw e => Throw e
          | Ok ps => Ok (p :: ps)
          end
      end
  end.

(** The objects of the array, allocated in order. *)
Fixpoint alloc_all (ps : list (@Product num)) (h : heap) : list loc * heap :=
  match ps with
  | [] => ([], h)
  | p :: rest =>
      let '(l, h1) := alloc p h in
      let '(ls, h2) := alloc_all rest h1 in
      (l :: ls, h2)
  end.

(** The body of the [compare_saas_pricing] case after [listItems]. *)
Definition compare (items : list (Item num)) (teamSize : option num)
    : result (Comparison * heap) :=
  match products_of items with
  | Throw e => Throw e
  | Ok objs =>
      let '(ps, h) := alloc_all objs [] in
      let paidProducts := List.filter (fun p => truthy (price_at h p)) ps in
      let paidProducts1 := sort (ascending h) paidProducts in
      let paidProducts2 := sort (descending h) paidProducts1 in
      let c := {|
        products := ps;
        cheapest :=
          if 0 <? length paidProducts then head paidProducts1 else None;
        mostExpensive :=
          if 0 <? length paidProducts then head paidProducts2 else None;
        withFreeTier := name_at h <$> List.filter (free_at h) ps
      |} in
      let h' :=
        if truthy teamSize
        then forEach_team_cost (ToNumber teamSize) ps h
        else h in
      Ok (c, h')
  end.

Definition compare_result (items : list (Item num)) (teamSize : option num)
    : result (@ComparisonResult num) :=
  match compare items teamSize with
  | Ok ch => Ok (stringify ch)
  | Throw e => Throw e
  end.

(** The text of [discover_pricing_page]: [items[0]], then [result?.url]
    tested for truthiness; [?.] stops on a [null] item. *)
Definition discover_text (items : list (Item num)) (requested : string) : string :=
  match head items with
  | Some (ItemObject _ (Some u) _) =>
      if String.eqb u ""
      then "Could not find pricing page for " +:+ requested
      else "Found pricing page: " +:+ u
  | _ => "Could not find pricing page for " +:+ requested
  end.

Definition run_actor (input : ActorInput) : list Event * result (list (Item num)) :=
  match actor_call input with
  | Failed m => ([ActorCall ACTOR_ID input], Throw (ExtractionError m))
  | Done run =>
      ([ActorCall ACTOR_ID input; DatasetListItems (defaultDatasetId run)],
       match listItems (defaultDatasetId run) with
       | Failed m => Throw (ExtractionError m)
       | Done items => Ok items
       end)
  end.

(** Validation, then the actor, then the response, all inside [try]:
    whatever is thrown on the way reaches the [catch]. *)
Definition handle {I : Type} (parse : result I) (request : I -> ActorInput)
    (respond : I -> list (Item num) -> result (Text num))
    : list Event * ToolResult num :=
  match parse with
  | Throw e => ([], caught e)
  | Ok input =>
      match run_actor (request input) with
      | (trace, Throw e) => (trace, caught e)
      | (trace, Ok items) =>
          match respond input items with
          | Ok t => (trace, returned t)
          | Throw e => (trace, caught e)
          end
      end
  end.

(** The [CallToolRequestSchema] handler: the calls made and the result. *)
Definition call_tool (name : string) (args : value num)
    : list Event * ToolResult num :=
  if String.eqb name "extract_saas_pricing" then
    handle (ExtractPricingInput is_url args) extract_request
      (fun _ items => Ok (JsonDataset items))
  else if String.eqb name "compare_saas_pricing" then
    handle (ComparePricingInput args) compare_request
      (fun input items =>
         match compare_result items (c_teamSize input) with
         | Ok r => Ok (JsonComparison r)
         | Throw e => Throw e
         end)
  else if String.eqb name "discover_pricing_page" then
    handle (DiscoverPricingInput is_url args) discover_request
      (fun input items => Ok (Plain (discover_text items (d_url input))))
  else
    ([], {| text := Plain ("Unknown tool: " +:+ name); isError := true |}).

End Server.
End Server.

(** The result of the handler on records, read as a result on items. *)
Definition as_dataset {num : Type} (r : ToolResult num) : ToolResult num :=
  match text r with
  | JsonItems items =>
      {| text := JsonDataset (item_of <$> items); isError := isError r |}
  | _ => r
  end.

(** A dataset of records. *)
Definition dataset_of {num : Type} (r : remote (list (@ExtractionRecord num)))
    : remote (list (Item num)) :=
  match r with
  | Done items => Done (item_of <$> items)
  | Failed m => Failed m
  end.

(** ** The tool descriptors *)

(** A default of an [inputSchema] property. *)
Inductive Default : Type :=
| DefaultString (s : string)
| DefaultBoolean (b : bool).

(** A property of an [inputSchema]: its key, its [type], the [type] of
    its [items], its [enum] and its [default]; the free-text
    [description] is left out. *)
Record Property : Type := {
  prop_key : string;
  prop_type : string;
  prop_items : option string;
  prop_enum : option (list string);
  prop_default : option Default
}.

(** An element of [tools], without its [description]. *)
Record Tool : Type := {
  tool_name : string;
  tool_properties : list Property;
  tool_required : list string
}.

Definition tools : list Tool := [
  {| tool_name := "extract_saas_pricing";
     tool_properties := [
       {| prop_key := "urls"; prop_type := "array"; prop_items := Some "string";
          prop_enum := None; prop_default := None |};
       {| prop_key := "proxyTier"; prop_type := "string"; prop_items := None;
          prop_enum := Some ["datacenter"; "residential"];
          prop_default := Some (DefaultString "datacenter") |};
       {| prop_key := "extractFeatures"; prop_type := "boolean"; prop_items := None;
          prop_enum := None; prop_default := Some (DefaultBoolean true) |} ];
     tool_required := ["urls"] |};
  {| tool_name := "compare_saas_pricing";
     tool_properties := [
       {| prop_key := "urls"; prop_type := "array"; prop_items := Some "string";
          prop_enum := None; prop_default := None |};
       {| prop_key := "teamSize"; prop_type := "number"; prop_items := None;
          prop_enum := None; prop_default := None |} ];
     tool_required := ["urls"] |};
  {| tool_name := "discover_pricing_page";
     tool_properties := [
       {| prop_key := "url"; prop_type := "string"; prop_items := None;
          prop_enum := None; prop_default := None |} ];
     tool_required := ["url"] |}
].

(** The [ListToolsRequestSchema] handler. *)
Definition list_tools : list Tool := tools.

(** A default as an argument value. *)
Definition default_value {num : Type} (d : Default) : value num :=
  match d with
  | DefaultString s => VString s
  | DefaultBoolean b => VBoolean b
  end.

(** ** Sample inputs, on exact rationals *)

Module Examples.
Import QNum.

Definition seat (n : string) (price : Z) : @Tier qnum := {|
  name := Some n;
  pricing := Some {| type := Some "paid"; perUnit := Some "user" |};
  normalizedMonthlyPrice := Some (int price);
  features := None
|}.

Definition flat (n : string) (price : Z) : @Tier qnum := {|
  name := Some n;
  pricing := Some {| type := Some "paid"; perUnit := Some "flat" |};
  normalizedMonthlyPrice := Some (int price);
  features := None
|}.

Definition free : @Tier qnum := {|
  name := Some "Free";
  pricing := Some {| type := Some "free"; perUnit := None |};
  normalizedMonthlyPrice := Some (int 0);
  features := None
|}.

(** A contact-sales tier: no price, no [pricing] object. *)
Definition enterprise : @Tier qnum := {|
  name := Some "Enterprise";
  pricing := None;
  normalizedMonthlyPrice := None;
  features := None
|}.

Definition product (n : string) (ts : option (list (@Tier qnum)))
    : @ExtractionRecord qnum := {|
  productName := Some n;
  url := Some ("https://" +:+ n +:+ ".com/pricing");
  tiers := ts
|}.

(** [lowestPaidPrice] 10, 5, none, 10, 5. *)
Definition A := product "a" (Some [free; seat "Pro" 10; flat "Business" 20]).
Definition B := product "b" (Some [seat "Team" 8; flat "Solo" 5; enterprise]).
Definition C := product "c" None.
Definition D := product "d" (Some [seat "Pro" 10]).
Definition E := product "e" (Some [flat "Lite" 5; free]).

(** A remote service that returns the given items. *)
Definition run_ok (_ : ActorInput) : remote Run :=
  Done {| defaultDatasetId := "dataset-1" |}.
Definition items_ok (items : list (@ExtractionRecord qnum)) (_ : string)
    : remote (list (@ExtractionRecord qnum)) :=
  Done items.

(** [{ urls: us }] and [{ urls: us, teamSize: n }] *)
Definition args_urls (us : list string) : value qnum :=
  VObject [("urls", VArray (VString <$> us))].
Definition args_team (us : list string) (n : Z) : value qnum :=
  VObject [("urls", VArray (VString <$> us)); ("teamSize", VNumber (int n))].

(** A test of URLs that is enough for the samples. *)
Definition starts_with_https (s : string) : bool :=
  String.prefix "https://" s.

End Examples.

(** ** Sample datasets *)

Module ServerExamples.
Import QNum.

(** The test of a number of zod 3 on the rationals: all but [NaN]. *)
Definition is_number (n : qnum) : bool :=
  match n with
  | QFin _ => true
  | QNaN => false
  end.

Definition items_ok (items : list (Item qnum)) (_ : string)
    : remote (list (Item qnum)) :=
  Done items.

(** A record whose second tier is [null]. *)
Definition broken : Item qnum :=
  ItemObject (Some "broken") None (TiersArray [TierObject Examples.free; NullTier]).

End ServerExamples.

(** * Proofs *)

(** ** The head of a sorted array *)

Section SortBasics.
Context {A : Type}.
Variable after : A -> A -> bool.

Lemma head_sort_insert x l :
  head (sort_insert after x l) = pick after x (head l).
Proof. destruct l as [|y l]; simpl; [done|]. by destruct (after x y). Qed.

Lemma head_sort_by l : head (sort_by after l) = foldr (pick after) None l.
Proof.
  induction l as [|x l IH]; simpl; [done|].
  by rewrite head_sort_insert, IH.
Qed.

Lemma pick_None l : foldr (pick after) None l = None -> l = [].
Proof.
  destruct l as [|x l]; simpl; [done|].
  destruct (foldr (pick after) None l) as [y|]; simpl; [|done].
  by destruct (after x y).
Qed.

Lemma pick_elem_of l x : foldr (pick after) None l = Some x -> x ∈ l.
Proof.
  revert x. induction l as [|a l IH]; simpl; intros x Hx; [done|].
  destruct (foldr (pick after) None l) as [m|]; simpl in Hx.
  - destruct (after a m); simplify_eq; [|left]. right. by apply IH.
  - simplify_eq. left.
Qed.

Lemma sort_insert_elem_of x y l : y ∈ sort_insert after x l <-> y = x \/ y ∈ l.
Proof.
  induction l as [|a l IH]; simpl.
  - rewrite list_elem_of_singleton, elem_of_nil. tauto.
  - destruct (after x a); rewrite !elem_of_cons; [rewrite IH|]; tauto.
Qed.

Lemma sort_by_elem_of y l : y ∈ sort_by after l <-> y ∈ l.
Proof.
  induction l as [|a l IH]; simpl; [done|].
  rewrite sort_insert_elem_of, elem_of_cons, IH. tauto.
Qed.

(** Sorting rearranges the array. *)
Lemma sort_insert_Permutation x l : Permutation (sort_insert after x l) (x :: l).
Proof.
  induction l as [|y l IH]; simpl; [done|].
  destruct (after x y); [|done]. rewrite IH. apply perm_swap.
Qed.

Lemma sort_by_Permutation l : Permutation (sort_by after l) l.
Proof.
  induction l as [|x l IH]; simpl; [done|].
  by rewrite sort_insert_Permutation, IH.
Qed.

End SortBasics.

Section SortFacts.
Context {A : Type}.
Variable after : A -> A -> bool.

(** The elements that are sorted; on them [after] is a strict order
    whose incomparability is transitive. *)
Variable D : A -> Prop.
Hypothesis after_trans : forall x y z,
  D x -> D y -> D z -> after x y = true -> after y z = true -> after x z = true.
Hypothesis after_irrefl : forall x, D x -> after x x = false.
Hypothesis after_neg_trans : forall x y z,
  D x -> D y -> D z -> after x y = false -> after y z = false -> after x z = false.

Lemma after_asym x y : D x -> D y -> after x y = true -> after y x = false.
Proof.
  intros Hx Hy Hxy. destruct (after y x) eqn:Hyx; [|done].
  rewrite <- (after_irrefl x Hx). symmetry. by apply (after_trans x y x).
Qed.

(** The head of the sorted array is the first element of the array that
    no element has to precede: the ones before it come after it, the ones
    behind it do not precede it. *)
Lemma pick_first l x :
  Forall D l ->
  foldr (pick after) None l = Some x ->
  exists l1 l2, l = l1 ++ x :: l2 /\
    Forall (fun y => after y x = true) l1 /\
    Forall (fun y => after x y = false) l2.
Proof.
  revert x. induction l as [|a l IH]; simpl; intros x HD Hx; [done|].
  apply Forall_cons in HD as [Ha HD].
  destruct (foldr (pick after) None l) as [m|] eqn:Hm; simpl in Hx.
  - destruct (IH m HD eq_refl) as (l1 & l2 & -> & H1 & H2).
    assert (Dm : D m).
    { rewrite Forall_app, Forall_cons in HD. tauto. }
    destruct (after a m) eqn:Ham; simplify_eq.
    + exists (a :: l1), l2. split_and!; [done| |done]. by constructor.
    + exists [], (l1 ++ m :: l2). split_and!; [done|constructor|].
      rewrite Forall_app, Forall_cons in HD. destruct HD as (D1 & _ & D2).
      rewrite Forall_app, Forall_cons. split_and!; [|done|].
      * rewrite Forall_forall in H1, D1 |- *. intros y Hy.
        destruct (after x y) eqn:Hxy; [|done].
        rewrite <- Ham. symmetry. apply (after_trans x y m); auto.
      * rewrite Forall_forall in H2, D2 |- *. intros y Hy.
        apply (after_neg_trans x m y); auto.
  - apply pick_None in Hm as ->. simplify_eq.
    exists [], []. by split_and!.
Qed.

(** Sorting again in the converse order: as the sort is stable, the head
    of the second sort is the one a converse sort of the original array
    would give. *)
(** No element of the sorted array has to be placed after a later one. *)
Lemma sort_insert_sorted x l :
  D x -> Forall D l ->
  StronglySorted (fun a b => after a b = false) l ->
  StronglySorted (fun a b => after a b = false) (sort_insert after x l).
Proof.
  intros Hx. induction l as [|y l IH]; simpl; intros HD Hs.
  - repeat constructor.
  - apply Forall_cons in HD as [Hy HD].
    apply StronglySorted_inv in Hs as [Hs Hy'].
    destruct (after x y) eqn:Hxy.
    + constructor; [by apply IH|].
      rewrite Forall_forall in Hy' |- *. intros z Hz.
      apply (sort_insert_elem_of after) in Hz as [->|Hz]; [|by apply Hy'].
      by apply after_asym.
    + constructor; [by constructor|]. constructor; [done|].
      rewrite Forall_forall in Hy', HD |- *. intros z Hz.
      apply (after_neg_trans x y z); auto.
Qed.

Lemma sort_by_sorted l :
  Forall D l -> StronglySorted (fun a b => after a b = false) (sort_by after l).
Proof.
  induction l as [|x l IH]; simpl; intros HD; [constructor|].
  apply Forall_cons in HD as [Hx HD]. apply sort_insert_sorted; auto.
  rewrite Forall_forall in HD |- *. intros y Hy.
  apply HD. by apply (sort_by_elem_of after).
Qed.

Lemma pick_before_commute x y acc :
  D x -> D y -> (forall m, acc = Some m -> D m) ->
  after x y = true ->
  pick (before after) y (pick (before after) x acc) = pick (before after) x (pick (before after) y acc).
Proof.
  intros Hx Hy Hacc Hxy. unfold before, pick.
  pose proof (after_asym x y Hx Hy Hxy) as Hyx.
  destruct acc as [m|]; [|by rewrite Hxy, Hyx].
  specialize (Hacc m eq_refl).
  destruct (after m x) eqn:Hmx.
  - rewrite (after_trans m x y), Hmx; auto.
  - rewrite Hxy. destruct (after m y) eqn:Hmy; [by rewrite Hmx|by rewrite Hyx].
Qed.

Lemma pick_before_sort_insert x l :
  D x -> Forall D l ->
  foldr (pick (before after)) None (sort_insert after x l)
  = pick (before after) x (foldr (pick (before after)) None l).
Proof.
  intros Hx. induction l as [|y l IH]; simpl; intros HD; [done|].
  apply Forall_cons in HD as [Hy HD].
  destruct (after x y) eqn:Hxy; simpl; [|done].
  rewrite IH by done. apply pick_before_commute; auto.
  intros m Hm. rewrite Forall_forall in HD. apply HD.
  by apply (pick_elem_of (before after)).
Qed.

End SortFacts.

Section SortTwice.
Context {A : Type}.
Variable after : A -> A -> bool.
Variable D : A -> Prop.
Hypothesis after_trans : forall x y z,
  D x -> D y -> D z -> after x y = true -> after y z = true -> after x z = true.
Hypothesis after_irrefl : forall x, D x -> after x x = false.

Lemma head_sort_by_twice l :
  Forall D l ->
  head (sort_by (before after) (sort_by after l))
  = foldr (pick (before after)) None l.
Proof.
  intros HD. rewrite head_sort_by.
  induction l as [|x l IH]; simpl; [done|].
  apply Forall_cons in HD as [Hx HD].
  rewrite (pick_before_sort_insert after D after_trans after_irrefl); auto.
  - by rewrite IH.
  - rewrite Forall_forall in HD |- *. intros y Hy.
    apply HD. by apply (sort_by_elem_of after).
Qed.

End SortTwice.

(** ** The heap *)

Lemma foldl_alter_lookup {A : Type} (f : A -> A) (ps : list nat) (h : list A) (i : nat) :
  NoDup ps ->
  foldl (fun h l => alter f l h) h ps !! i
  = if decide (i ∈ ps) then f <$> h !! i else h !! i.
Proof.
  revert h. induction ps as [|a ps IH]; intros h Hnd.
  - destruct (decide (i ∈ [])) as [Hi|Hi]; [|done]. by apply elem_of_nil in Hi.
  - apply NoDup_cons in Hnd as [Ha Hnd]. cbn [foldl]. rewrite IH by done.
    rewrite list_lookup_alter.
    destruct (decide (i ∈ ps)) as [Hi|Hi], (decide (i ∈ a :: ps)) as [Hi'|Hi'],
      (decide (a = i)) as [->|Hne]; try done;
      try (exfalso; apply Hi'; by (left || right));
      apply elem_of_cons in Hi' as [->|?]; done.
Qed.

Lemma foldl_alter_all {A : Type} (f : A -> A) (h : list A) :
  foldl (fun h l => alter f l h) h (seq 0 (length h)) = f <$> h.
Proof.
  apply list_eq. intros i.
  rewrite foldl_alter_lookup by apply NoDup_seq.
  rewrite list_lookup_fmap.
  destruct (decide (i ∈ seq 0 (length h))) as [Hi|Hi]; [done|].
  rewrite elem_of_seq in Hi.
  rewrite (lookup_ge_None_2 h i) by lia. done.
Qed.

Lemma omap_lookup_seq_app {A : Type} (h0 h : list A) :
  omap (fun l => (h0 ++ h) !! l) (seq (length h0) (length h)) = h.
Proof.
  revert h0. induction h as [|a h IH]; intros h0; [done|].
  cbn [length seq]. change (omap ?f (?x :: ?l)) with
    (match f x with Some y => y :: omap f l | None => omap f l end).
  cbv beta. rewrite list_lookup_middle by done. f_equal.
  specialize (IH (h0 ++ [a])).
  rewrite length_app, Nat.add_1_r, <- app_assoc in IH. exact IH.
Qed.

Lemma omap_lookup_seq {A : Type} (h : list A) :
  omap (fun l => h !! l) (seq 0 (length h)) = h.
Proof. exact (omap_lookup_seq_app [] h). Qed.

(** ** The products of a comparison *)

Section Products.
Context {num : Type} `{!JSNumber num}.
Implicit Types (items : list (@ExtractionRecord num)) (teamSize : option num).
Implicit Types (h : list (@Product num)).

Lemma alloc_map_spec items h :
  alloc_map items h = (seq (length h) (length items), h ++ (product_of <$> items)).
Proof.
  revert h. induction items as [|item items IH]; intros h; simpl.
  - by rewrite app_nil_r.
  - rewrite IH. rewrite length_app. simpl.
    by rewrite Nat.add_1_r, <- app_assoc.
Qed.

(** The product object of an item when the handler returns. *)
Lemma compare_heap items teamSize :
  (compare items teamSize).2
  = (fun item =>
       if truthy teamSize
       then assign_team_cost (ToNumber teamSize) (product_of item)
       else product_of item) <$> items.
Proof.
  unfold compare. rewrite alloc_map_spec. simpl.
  destruct (truthy teamSize); [|done].
  unfold forEach_team_cost.
  rewrite <- (length_fmap product_of items).
  etrans; [exact (foldl_alter_all _ _)|].
  by rewrite <- list_fmap_compose.
Qed.

Lemma compare_products items teamSize :
  products (compare items teamSize).1 = seq 0 (length items).
Proof. unfold compare. by rewrite alloc_map_spec. Qed.

Lemma compare_result_products items teamSize :
  r_products (compare_result items teamSize)
  = (fun item =>
       if truthy teamSize
       then assign_team_cost (ToNumber teamSize) (product_of item)
       else product_of item) <$> items.
Proof.
  unfold compare_result, stringify.
  pose proof (compare_heap items teamSize) as Hh.
  pose proof (compare_products items teamSize) as Hp.
  destruct (compare items teamSize) as [c h]. simpl in *.
  rewrite Hp, <- Hh.
  assert (length items = length h) as -> by (by rewrite Hh, length_fmap).
  apply omap_lookup_seq.
Qed.

(** Assigning [estimatedTeamCost] changes no other field. *)
Lemma final_lowestPaidPrice items teamSize i :
  (compare items teamSize).2 !! i ≫= lowestPaidPrice
  = items !! i ≫= (fun item => lowest_paid_price (tiers item)).
Proof.
  rewrite compare_heap, list_lookup_fmap.
  destruct (items !! i) as [item|]; simpl; [|done].
  by destruct (truthy teamSize).
Qed.

End Products.

(** ** Sorting by a positive key *)

Lemma filter_seq_split (f : nat -> bool) (a n : nat) (l1 l2 : list nat) (i : nat) :
  List.filter f (seq a n) = l1 ++ i :: l2 ->
  forall k, k ∈ l2 -> i < k.
Proof.
  revert a l1. induction n as [|n IH]; intros a l1; simpl.
  - by destruct l1.
  - destruct (f a).
    + destruct l1 as [|b l1]; simpl; intros Heq; simplify_eq.
      * intros k Hk. apply list_elem_of_In, filter_In in Hk as [Hk _].
        apply in_seq in Hk. lia.
      * by eapply IH.
    + apply IH.
Qed.

Section KeyOrder.
Context {num : Type} `{!JSNumber num} `{!JSNumberLaws num}.
Context {A : Type}.
Variable key : A -> num.

(** [(a, b) => key(a) - key(b)] and [(a, b) => key(b) - key(a)], on
    elements of positive key. *)
Local Abbreviation asc := (fun a b : A => nsub (key a) (key b)).
Local Abbreviation desc := (fun a b : A => nsub (key b) (key a)).
Local Abbreviation D := (fun a : A => positive (key a) = true).
Local Abbreviation after_asc := (fun a b : A => positive (nsub (key a) (key b))).
Local Abbreviation after_desc := (fun a b : A => positive (nsub (key b) (key a))).

Lemma asc_after_trans x y z :
  D x -> D y -> D z ->
  after_asc x y = true -> after_asc y z = true -> after_asc x z = true.
Proof.
  cbv beta. intros Hx Hy Hz.
  rewrite !nsub_positive by done. intros. by apply (nlt_trans _ (key y)).
Qed.

Lemma asc_after_irrefl x : D x -> after_asc x x = false.
Proof.
  cbv beta. intros Hx. rewrite nsub_positive by done. apply nlt_irrefl.
Qed.

Lemma asc_after_neg_trans x y z :
  D x -> D y -> D z ->
  after_asc x y = false -> after_asc y z = false -> after_asc x z = false.
Proof.
  cbv beta. intros Hx Hy Hz.
  rewrite !nsub_positive by done. intros. by apply (nlt_neg_trans _ (key y)).
Qed.

Lemma desc_after_trans x y z :
  D x -> D y -> D z ->
  after_desc x y = true -> after_desc y z = true -> after_desc x z = true.
Proof.
  cbv beta. intros Hx Hy Hz.
  rewrite !nsub_positive by done. intros. by apply (nlt_trans _ (key y)).
Qed.

Lemma desc_after_neg_trans x y z :
  D x -> D y -> D z ->
  after_desc x y = false -> after_desc y z = false -> after_desc x z = false.
Proof.
  cbv beta. intros Hx Hy Hz.
  rewrite !nsub_positive by done. intros. by apply (nlt_neg_trans _ (key y)).
Qed.

(** The head of an array sorted in ascending order of a positive key is
    its first element of least key. *)
Lemma head_sort_ascending l x :
  Forall D l ->
  head (sort asc l) = Some x ->
  exists l1 l2, l = l1 ++ x :: l2 /\
    Forall (fun y => nlt (key x) (key y) = true) l1 /\
    Forall (fun y => nlt (key y) (key x) = false) l2.
Proof.
  intros HD Hx. unfold sort in Hx. rewrite head_sort_by in Hx.
  destruct (pick_first after_asc D asc_after_trans asc_after_neg_trans l x HD Hx)
    as (l1 & l2 & -> & H1 & H2).
  apply Forall_app in HD as [D1 HD]. apply Forall_cons in HD as [Dx D2].
  exists l1, l2. split_and!; [done| |].
  - rewrite Forall_forall in H1, D1 |- *. intros y Hy.
    specialize (H1 y Hy). cbv beta in H1.
    rewrite nsub_positive in H1; [done|by apply D1|apply Dx].
  - rewrite Forall_forall in H2, D2 |- *. intros y Hy.
    specialize (H2 y Hy). cbv beta in H2.
    rewrite nsub_positive in H2; [done|apply Dx|by apply D2].
Qed.

(** Sorted in ascending and then in descending order, the head is the
    first element of greatest key of the original array. *)
Lemma head_sort_descending_ascending l x :
  Forall D l ->
  head (sort desc (sort asc l)) = Some x ->
  exists l1 l2, l = l1 ++ x :: l2 /\
    Forall (fun y => nlt (key y) (key x) = true) l1 /\
    Forall (fun y => nlt (key x) (key y) = false) l2.
Proof.
  intros HD Hx. unfold sort in Hx.
  change after_desc with (before after_asc) in Hx.
  rewrite (head_sort_by_twice _ D asc_after_trans asc_after_irrefl) in Hx by done.
  destruct (pick_first after_desc D desc_after_trans desc_after_neg_trans l x HD Hx)
    as (l1 & l2 & -> & H1 & H2).
  apply Forall_app in HD as [D1 HD]. apply Forall_cons in HD as [Dx D2].
  exists l1, l2. split_and!; [done| |].
  - rewrite Forall_forall in H1, D1 |- *. intros y Hy.
    specialize (H1 y Hy). cbv beta in H1.
    rewrite nsub_positive in H1; [done|apply Dx|by apply D1].
  - rewrite Forall_forall in H2, D2 |- *. intros y Hy.
    specialize (H2 y Hy). cbv beta in H2.
    rewrite nsub_positive in H2; [done|by apply D2|apply Dx].
Qed.

Lemma head_sort_is_Some (comparefn : A -> A -> num) l :
  l <> [] -> is_Some (head (sort comparefn l)).
Proof.
  intros Hl. unfold sort. rewrite head_sort_by.
  destruct (foldr _ None l) eqn:E; [by eexists|].
  by apply pick_None in E.
Qed.

End KeyOrder.

(** ** [lowestPaidPrice] *)

Section LowestPaidPrice.
Context {num : Type} `{!JSNumber num} `{!JSNumberLaws num}.
Implicit Types (t : @Tier num) (l : list (@Tier num)).

Lemma is_paid_iff t :
  is_paid t = true <->
  exists w, normalizedMonthlyPrice t = Some w /\ positive w = true.
Proof.
  unfold is_paid. destruct (normalizedMonthlyPrice t) as [w|]; simpl.
  - split; [eauto|]. by intros (? & [= <-] & ?).
  - rewrite positive_NaN. split; [done|]. by intros (? & ? & ?).
Qed.

Lemma is_paid_0 t : normalizedMonthlyPrice t = Some num_0 -> is_paid t = false.
Proof. unfold is_paid. intros ->. apply nlt_irrefl. Qed.

Lemma lowest_paid_price_Some ts v :
  lowest_paid_price ts = Some v ->
  positive v = true /\
  exists l t, ts = Some l /\ t ∈ l /\ normalizedMonthlyPrice t = Some v /\
    forall t' w, t' ∈ l -> normalizedMonthlyPrice t' = Some w ->
      positive w = true -> nlt w v = false.
Proof.
  unfold lowest_paid_price. destruct ts as [l|]; [|done].
  destruct (head _) as [t|] eqn:Hhead; [|done]. intros Hv.
  assert (HD : Forall (fun t => positive (ToNumber (normalizedMonthlyPrice t)) = true)
                 (List.filter is_paid l)).
  { apply Forall_forall. intros t' Ht'.
    by apply list_elem_of_In, filter_In in Ht' as [_ Ht']. }
  destruct (head_sort_ascending (fun t => ToNumber (normalizedMonthlyPrice t))
              _ t HD Hhead) as (l1 & l2 & Hsplit & H1 & H2).
  assert (Ht : In t (List.filter is_paid l)).
  { rewrite Hsplit. apply in_or_app. right. by left. }
  apply filter_In in Ht as [Ht Hpaid].
  split; [unfold is_paid in Hpaid; by rewrite Hv in Hpaid|].
  exists l, t. split_and!; [done|by apply list_elem_of_In|done|].
  intros t' w Ht' Hw Hpos.
  assert (Hin : t' ∈ l1 ++ t :: l2).
  { rewrite <- Hsplit. apply list_elem_of_In, filter_In.
    split; [by apply list_elem_of_In|]. apply is_paid_iff. eauto. }
  rewrite Forall_forall in H1, H2.
  apply elem_of_app in Hin as [Hin|Hin]; [|apply elem_of_cons in Hin as [->|Hin]].
  - specialize (H1 t' Hin). rewrite Hw, Hv in H1. simpl in H1.
    destruct (nlt w v) eqn:E; [|done].
    rewrite <- (nlt_irrefl w). symmetry. by apply (nlt_trans w v w).
  - rewrite Hv in Hw. simplify_eq. apply nlt_irrefl.
  - specialize (H2 t' Hin). by rewrite Hw, Hv in H2.
Qed.

Lemma lowest_paid_price_None ts :
  lowest_paid_price ts = None <->
  forall l t, ts = Some l -> t ∈ l -> is_paid t = false.
Proof.
  unfold lowest_paid_price. destruct ts as [l|]; [|by split].
  destruct (head _) as [t|] eqn:Hhead.
  - assert (Ht : In t (List.filter is_paid l)).
    { apply list_elem_of_In. unfold sort in Hhead. rewrite head_sort_by in Hhead.
      by apply pick_elem_of in Hhead. }
    apply filter_In in Ht as [Ht Hpaid]. split.
    + intros Hnone. apply is_paid_iff in Hpaid as (w & Hw & _). congruence.
    + intros Hall. rewrite (Hall l t) in Hpaid; [done|done|by apply list_elem_of_In].
  - split; [|done]. intros _ ? t [= <-] Ht.
    destruct (is_paid t) eqn:Hpaid; [|done].
    assert (Hne : List.filter is_paid l <> []).
    { intros E. assert (Hin : In t (List.filter is_paid l)).
      { apply filter_In. split; [by apply list_elem_of_In|done]. }
      by rewrite E in Hin. }
    apply (head_sort_is_Some by_price) in Hne as [? Hne]. congruence.
Qed.

Lemma lowest_paid_price_skip l1 l2 t :
  is_paid t = false ->
  lowest_paid_price (Some (l1 ++ t :: l2)) = lowest_paid_price (Some (l1 ++ l2)).
Proof.
  intros Ht. unfold lowest_paid_price.
  rewrite !List.filter_app. simpl. by rewrite Ht.
Qed.

End LowestPaidPrice.

(** ** [summary.cheapest] and [summary.mostExpensive] *)

Section Summary.
Context {num : Type} `{!JSNumber num} `{!JSNumberLaws num}.
Implicit Types (items : list (@ExtractionRecord num)) (teamSize : option num).

(** The prices seen by the filter and the comparators. *)
Lemma price_at_product_of items k :
  price_at (product_of <$> items) k
  = items !! k ≫= (fun item => lowest_paid_price (tiers item)).
Proof.
  unfold price_at. rewrite list_lookup_fmap. by destruct (items !! k).
Qed.

Lemma price_at_compare items teamSize k :
  price_at (compare items teamSize).2 k = price_at (product_of <$> items) k.
Proof.
  rewrite price_at_product_of. apply final_lowestPaidPrice.
Qed.

Lemma price_at_positive items k v :
  price_at (product_of <$> items) k = Some v -> positive v = true.
Proof.
  rewrite price_at_product_of. destruct (items !! k) as [item|]; [|done].
  simpl. intros Hv. by apply lowest_paid_price_Some in Hv as [? _].
Qed.

Lemma price_at_lt items k v :
  price_at (product_of <$> items) k = Some v -> k < length items.
Proof.
  rewrite price_at_product_of. intros Hv.
  apply lookup_lt_is_Some. by destruct (items !! k).
Qed.

(** [paidProducts] holds the products that have a price. *)
Lemma elem_of_paidProducts items k :
  let h := product_of <$> items in
  k ∈ List.filter (fun p => truthy (price_at h p)) (seq 0 (length items))
  <-> exists v, price_at h k = Some v.
Proof.
  intros h. rewrite list_elem_of_In, filter_In, in_seq. split.
  - intros [_ Ht]. destruct (price_at h k) as [v|]; [eauto|done].
  - intros [v Hv]. split.
    + apply price_at_lt in Hv. lia.
    + rewrite Hv. simpl. apply ToBoolean_positive. by eapply price_at_positive.
Qed.

Lemma compare_summary items teamSize :
  let h := product_of <$> items in
  let paidProducts :=
    List.filter (fun p => truthy (price_at h p)) (seq 0 (length items)) in
  cheapest (compare items teamSize).1
  = (if (0 <? length paidProducts)
     then head (sort (ascending h) paidProducts) else None) /\
  mostExpensive (compare items teamSize).1
  = (if (0 <? length paidProducts)
     then head (sort (descending h) (sort (ascending h) paidProducts))
     else None).
Proof. unfold compare. by rewrite alloc_map_spec. Qed.

(** C1: [summary.cheapest] and [summary.mostExpensive] are computed over
    the products that have a [lowestPaidPrice].  When no product has one,
    both are [null].  When some product has one, [cheapest] is the product
    of least [lowestPaidPrice] and [mostExpensive] the one of greatest
    [lowestPaidPrice], in both cases the first such product in the order
    of the input (product [k] is the one of item [k]). *)
Theorem cheapest_mostExpensive_correct items teamSize :
  let c := (compare items teamSize).1 in
  let h := (compare items teamSize).2 in
  products c = seq 0 (length items) /\
  ((forall k, price_at h k = None) ->
     cheapest c = None /\ mostExpensive c = None) /\
  ((exists k, price_at h k <> None) ->
     exists i j, cheapest c = Some i /\ mostExpensive c = Some j /\
       first_cheapest h i /\ first_most_expensive h j).
Proof.
  intros c h. split; [apply compare_products|].
  destruct (compare_summary items teamSize) as [Hc Hm].
  fold c in Hc, Hm. cbv zeta in Hc, Hm.
  set (h0 := product_of <$> items) in *.
  set (paid := List.filter _ _) in *.
  assert (Hprice : forall k, price_at h k = price_at h0 k)
    by apply price_at_compare.
  assert (Hpaid : forall k, k ∈ paid <-> exists v, price_at h0 k = Some v)
    by apply elem_of_paidProducts.
  assert (HD : Forall (fun l => positive (ToNumber (price_at h0 l)) = true) paid).
  { apply Forall_forall. intros k Hk. apply Hpaid in Hk as [v Hv].
    rewrite Hv. simpl. by eapply price_at_positive. }
  split.
  - intros Hnone. assert (paid = []) as ->; [|by rewrite Hc, Hm].
    destruct paid as [|k paid'] eqn:E; [done|].
    assert (Hk : k ∈ k :: paid') by left.
    apply Hpaid in Hk as [v Hv]. rewrite <- Hprice, Hnone in Hv. done.
  - intros [k0 Hk0]. rewrite Hprice in Hk0.
    assert (Hne : paid <> []).
    { intros E. assert (Hin : k0 ∈ paid).
      { apply Hpaid. destruct (price_at h0 k0); [eauto|done]. }
      rewrite E in Hin. by apply elem_of_nil in Hin. }
    assert ((0 <? length paid) = true) as Hlen.
    { apply Nat.ltb_lt. destruct paid; [done|simpl; lia]. }
    rewrite Hlen in Hc, Hm.
    destruct (head_sort_is_Some (ascending h0) paid Hne) as [i Hi].
    assert (Hne' : sort (ascending h0) paid <> []).
    { intros E. by rewrite E in Hi. }
    destruct (head_sort_is_Some (descending h0) _ Hne') as [j Hj].
    exists i, j. rewrite Hc, Hm. split_and!; [done|done| |].
    + destruct (head_sort_ascending (fun l => ToNumber (price_at h0 l))
                  paid i HD Hi) as (l1 & l2 & Hsplit & H1 & H2).
      rewrite Forall_forall in H1, H2.
      assert (Hin : i ∈ paid) by (rewrite Hsplit; apply elem_of_app; right; left).
      apply Hpaid in Hin as [v Hv]. exists v.
      rewrite Hv in H1, H2. simpl in H1, H2.
      split_and!; [by rewrite Hprice| |].
      * intros k w. rewrite Hprice. intros Hw.
        assert (Hk : k ∈ paid) by (apply Hpaid; eauto).
        rewrite Hsplit, elem_of_app, elem_of_cons in Hk.
        destruct Hk as [Hk|[->|Hk]].
        -- specialize (H1 k Hk). rewrite Hw in H1. simpl in H1.
           destruct (nlt w v) eqn:E; [|done].
           rewrite <- (nlt_irrefl w). symmetry. by apply (nlt_trans w v w).
        -- rewrite Hv in Hw. simplify_eq. apply nlt_irrefl.
        -- specialize (H2 k Hk). by rewrite Hw in H2.
      * intros k w Hlt. rewrite Hprice. intros Hw.
        assert (Hk : k ∈ paid) by (apply Hpaid; eauto).
        rewrite Hsplit, elem_of_app, elem_of_cons in Hk.
        destruct Hk as [Hk|[->|Hk]]; [|lia|].
        -- specialize (H1 k Hk). by rewrite Hw in H1.
        -- apply (filter_seq_split _ _ _ _ _ _ Hsplit) in Hk. lia.
    + destruct (head_sort_descending_ascending (fun l => ToNumber (price_at h0 l))
                  paid j HD Hj) as (l1 & l2 & Hsplit & H1 & H2).
      rewrite Forall_forall in H1, H2.
      assert (Hin : j ∈ paid) by (rewrite Hsplit; apply elem_of_app; right; left).
      apply Hpaid in Hin as [v Hv]. exists v.
      rewrite Hv in H1, H2. simpl in H1, H2.
      split_and!; [by rewrite Hprice| |].
      * intros k w. rewrite Hprice. intros Hw.
        assert (Hk : k ∈ paid) by (apply Hpaid; eauto).
        rewrite Hsplit, elem_of_app, elem_of_cons in Hk.
        destruct Hk as [Hk|[->|Hk]].
        -- specialize (H1 k Hk). rewrite Hw in H1. simpl in H1.
           destruct (nlt v w) eqn:E; [|done].
           rewrite <- (nlt_irrefl w). symmetry. by apply (nlt_trans w v w).
        -- rewrite Hv in Hw. simplify_eq. apply nlt_irrefl.
        -- specialize (H2 k Hk). by rewrite Hw in H2.
      * intros k w Hlt. rewrite Hprice. intros Hw.
        assert (Hk : k ∈ paid) by (apply Hpaid; eauto).
        rewrite Hsplit, elem_of_app, elem_of_cons in Hk.
        destruct Hk as [Hk|[->|Hk]]; [|lia|].
        -- specialize (H1 k Hk). by rewrite Hw in H1.
        -- apply (filter_seq_split _ _ _ _ _ _ Hsplit) in Hk. lia.
Qed.

End Summary.

(** ** The laws hold on exact rationals *)

Module QNumLaws.
Import QNum.

Lemma qlt_spec (a b : Q) : negb (Qle_bool b a) = true <-> (a < b)%Q.
Proof.
  rewrite negb_true_iff. split.
  - intros H. apply Qnot_le_lt. intros Hle.
    apply Qle_bool_iff in Hle. congruence.
  - intros H. destruct (Qle_bool b a) eqn:E; [|done].
    apply Qle_bool_iff in E. exfalso. by apply (Qlt_not_le a b).
Qed.

Lemma qlt_false (a b : Q) : negb (Qle_bool b a) = false <-> (b <= a)%Q.
Proof. rewrite negb_false_iff. apply Qle_bool_iff. Qed.

#[export] Instance qnum_laws : JSNumberLaws qnum.
Proof.
  split; unfold positive, negative; simpl.
  - done.
  - intros [|x]; simpl; [done|]. apply qlt_false. apply Qle_refl.
  - intros [|x] [|y] [|z]; simpl; try done.
    rewrite !qlt_spec. apply Qlt_trans.
  - intros [|x] [|y] [|z]; simpl; try done.
    rewrite !qlt_spec, !qlt_false. intros _ _ _ H1 H2. by apply (Qle_trans _ y).
  - intros [|x] [|y]; simpl; try done. intros _ _.
    apply eq_true_iff_eq. rewrite !qlt_spec. split; intros; lra.
  - intros [|x]; simpl; [done|]. rewrite qlt_spec, negb_true_iff. intros Hx.
    destruct (Qeq_bool x 0) eqn:E; [|done]. apply Qeq_bool_iff in E. lra.
  - intros [|x]; simpl; [done|]. rewrite qlt_spec, negb_true_iff. intros Hx.
    destruct (Qeq_bool x 0) eqn:E; [|done]. apply Qeq_bool_iff in E. lra.
  - done.
  - intros [|x] [|y]; simpl; try done.
    rewrite !qlt_spec, Qle_bool_iff. intros Hx Hy. nra.
  - intros [|x]; simpl; [done|]. rewrite !Qle_bool_iff. intros Hx. lra.
Qed.

End QNumLaws.

(** ** The fields of a product *)

(** Filtering and mapping the references [a], [a + 1], ... is filtering
    and mapping what they point to. *)
Lemma map_filter_seq {A B : Type} (G : A -> bool) (F : A -> B)
    (g : nat -> bool) (f : nat -> B) (l : list A) (a : nat) :
  (forall k x, l !! k = Some x -> g (a + k) = G x /\ f (a + k) = F x) ->
  f <$> List.filter g (seq a (length l)) = F <$> List.filter G l.
Proof.
  revert a. induction l as [|x l IH]; intros a Hl; [done|].
  destruct (Hl 0 x eq_refl) as [Hg Hf]. rewrite Nat.add_0_r in Hg, Hf.
  assert (Hrest : f <$> List.filter g (seq (S a) (length l))
                  = F <$> List.filter G l).
  { apply IH. intros k y Hk. rewrite Nat.add_succ_l, <- Nat.add_succ_r.
    by apply Hl. }
  cbn [length seq List.filter]. rewrite Hg.
  destruct (G x); [|done]. rewrite !fmap_cons. by rewrite Hf, Hrest.
Qed.

Section ProductFields.
Context {num : Type} `{!JSNumber num}.
Implicit Types (items : list (@ExtractionRecord num)) (teamSize : option num).
Implicit Types (t : @Tier num).

Lemma compare_result_lookup items teamSize i item :
  items !! i = Some item ->
  r_products (compare_result items teamSize) !! i
  = Some (if truthy teamSize
          then assign_team_cost (ToNumber teamSize) (product_of item)
          else product_of item).
Proof.
  intros Hi. by rewrite compare_result_products, list_lookup_fmap, Hi.
Qed.

Lemma is_free_iff t :
  is_free t = true <->
  exists p, pricing t = Some p /\ type p = Some "free".
Proof.
  unfold is_free. destruct (pricing t) as [p|].
  - destruct (type p) as [s|] eqn:Hs.
    + rewrite String.eqb_eq. split.
      * intros ->. eauto.
      * intros (p' & [= <-] & Hp'). congruence.
    + split; [done|]. intros (p' & [= <-] & Hp'). congruence.
  - split; [done|]. by intros (? & ? & ?).
Qed.

Lemma is_per_user_iff t :
  is_per_user t = true <->
  exists p, pricing t = Some p /\ perUnit p = Some "user".
Proof.
  unfold is_per_user. destruct (pricing t) as [p|].
  - destruct (perUnit p) as [s|] eqn:Hs.
    + rewrite String.eqb_eq. split.
      * intros ->. eauto.
      * intros (p' & [= <-] & Hp'). congruence.
    + split; [done|]. intros (p' & [= <-] & Hp'). congruence.
  - split; [done|]. by intros (? & ? & ?).
Qed.

Lemma existsb_is_free (l : list (@Tier num)) :
  existsb is_free l = true <->
  exists t p, t ∈ l /\ pricing t = Some p /\ type p = Some "free".
Proof.
  rewrite existsb_exists. split.
  - intros (t & Ht & Hfree). apply is_free_iff in Hfree as (p & ? & ?).
    exists t, p. by rewrite list_elem_of_In.
  - intros (t & p & Ht & ? & ?). exists t. rewrite <- list_elem_of_In.
    split; [done|]. apply is_free_iff. eauto.
Qed.

(** C3, as the code has it: [hasFreeTier] is [true] exactly when
    [item.tiers] is present and one of its tiers has
    [pricing.type === "free"]; it is [false] when [item.tiers] is present
    and has no such tier; when [item.tiers] is absent it is [undefined]
    (the key is missing from the printed product), which is falsy. *)
Theorem hasFreeTier_correct items teamSize i item :
  items !! i = Some item ->
  exists p, r_products (compare_result items teamSize) !! i = Some p /\
    (hasFreeTier p = Some true <->
       exists l t pr, tiers item = Some l /\ t ∈ l /\
         pricing t = Some pr /\ type pr = Some "free") /\
    (hasFreeTier p = Some false <->
       exists l, tiers item = Some l /\
         forall t pr, t ∈ l -> pricing t = Some pr -> type pr <> Some "free") /\
    (hasFreeTier p = None <-> tiers item = None).
Proof.
  intros Hi. eexists. split; [by apply compare_result_lookup|].
  assert (Hfield : hasFreeTier
            (if truthy teamSize
             then assign_team_cost (ToNumber teamSize) (product_of item)
             else product_of item) = existsb is_free <$> tiers item)
    by (by destruct (truthy teamSize)).
  rewrite Hfield. destruct (tiers item) as [l|]; simpl.
  - split_and!.
    + split.
      * intros [= Hex]. apply existsb_is_free in Hex as (t & pr & ?).
        by exists l, t, pr.
      * intros (l' & t & pr & [= <-] & ?). f_equal.
        apply existsb_is_free. by exists t, pr.
    + split.
      * intros [= Hex]. exists l. split; [done|]. intros t pr Ht Hpr Hty.
        assert (existsb is_free l = true) by (apply existsb_is_free; eauto).
        congruence.
      * intros (l' & [= <-] & Hall). f_equal.
        destruct (existsb is_free l) eqn:Hex; [|done].
        apply existsb_is_free in Hex as (t & pr & Ht & Hpr & Hty).
        by destruct (Hall t pr Ht Hpr).
    + by split.
  - split_and!; [split; [done|]|split; [done|]|done].
    + by intros (? & ? & ? & ? & _).
    + by intros (? & ? & _).
Qed.

(** [summary.withFreeTier]: the names of the products whose [hasFreeTier]
    is [true], in the order of the input. *)
Lemma withFreeTier_correct items teamSize :
  r_withFreeTier (compare_result items teamSize)
  = productName <$>
      List.filter (fun item => default false (existsb is_free <$> tiers item)) items.
Proof.
  unfold compare_result, compare. rewrite alloc_map_spec. simpl.
  apply (map_filter_seq _ _ _ _ items 0). intros k item Hk. simpl.
  unfold free_at, name_at. by rewrite list_lookup_fmap, Hk.
Qed.

End ProductFields.

(** ** [estimatedTeamCost] and the shared product objects *)

Section TeamCost.
Context {num : Type} `{!JSNumber num}.
Implicit Types (items : list (@ExtractionRecord num)) (teamSize : option num).

(** C4, as the code has it: with a [teamSize] [n] that is truthy (not
    zero), the [estimatedTeamCost] of a product whose item has [tiers] is
    the sequence, in tier order, of tier name, [monthly = price * n] and
    [yearly = monthly * 12] over the tiers with
    [pricing.perUnit === "user"] (empty when there is none); a product
    whose item has no [tiers] gets [undefined]; with a [teamSize] of zero
    nothing is assigned. *)
Theorem estimatedTeamCost_correct items n i item :
  items !! i = Some item ->
  exists p, r_products (compare_result items (Some n)) !! i = Some p /\
    estimatedTeamCost p
    = (if ToBoolean n
       then (fun l =>
               (fun t => {| tier := name t;
                            monthly := nmul (ToNumber (normalizedMonthlyPrice t)) n;
                            yearly := nmul (nmul (ToNumber (normalizedMonthlyPrice t)) n)
                                        num_12 |})
               <$> List.filter is_per_user l) <$> tiers item
       else None) /\
    (forall l e, estimatedTeamCost p = Some l -> e ∈ l ->
       yearly e = nmul (monthly e) num_12) /\
    (forall t : @Tier num,
       is_per_user t = true <->
       exists pr, pricing t = Some pr /\ perUnit pr = Some "user").
Proof.
  intros Hi. eexists. split; [by apply compare_result_lookup|].
  simpl. split_and!; [|..|apply is_per_user_iff].
  - by destruct (ToBoolean n).
  - destruct (ToBoolean n); simpl; [|done]. intros l e Hl He.
    destruct (tiers item) as [ts|]; simplify_eq/=.
    by apply list_elem_of_fmap in He as (t & -> & _).
Qed.

Lemma head_sort_elem_of {A : Type} (comparefn : A -> A -> num) (l : list A) (x : A) :
  head (sort comparefn l) = Some x -> x ∈ l.
Proof.
  unfold sort. rewrite head_sort_by. apply pick_elem_of.
Qed.

Lemma summary_lt items teamSize l :
  cheapest (compare items teamSize).1 = Some l
  \/ mostExpensive (compare items teamSize).1 = Some l ->
  l < length items.
Proof.
  destruct (compare_summary items teamSize) as [-> ->]. cbv zeta.
  set (paid := List.filter _ _).
  assert (Hpaid : forall k, k ∈ paid -> k < length items).
  { intros k Hk. apply list_elem_of_In, filter_In in Hk as [Hk _].
    apply in_seq in Hk. lia. }
  destruct (0 <? length paid); [|by intros [|]].
  intros [H|H]; apply head_sort_elem_of in H; apply Hpaid; [done|].
  unfold sort in H. by apply sort_by_elem_of in H.
Qed.

Lemma stringify_summary items teamSize :
  r_cheapest (compare_result items teamSize)
  = cheapest (compare items teamSize).1
      ≫= (fun l => r_products (compare_result items teamSize) !! l) /\
  r_mostExpensive (compare_result items teamSize)
  = mostExpensive (compare items teamSize).1
      ≫= (fun l => r_products (compare_result items teamSize) !! l).
Proof.
  rewrite compare_result_products, <- compare_heap.
  unfold compare_result, stringify.
  by destruct (compare items teamSize) as [c h].
Qed.

(** C10: [summary.cheapest] and [summary.mostExpensive], when set, are
    references to entries of [comparison.products]: what is printed for
    them is what is printed for that entry, and so, when a truthy
    [teamSize] makes [forEach] assign [estimatedTeamCost] to the entry,
    the field is printed under [summary] as well. *)
Theorem summary_shares_products items teamSize :
  let c := (compare items teamSize).1 in
  let r := compare_result items teamSize in
  (forall l, cheapest c = Some l ->
     exists i p, products c !! i = Some l /\
       r_products r !! i = Some p /\ r_cheapest r = Some p) /\
  (forall l, mostExpensive c = Some l ->
     exists i p, products c !! i = Some l /\
       r_products r !! i = Some p /\ r_mostExpensive r = Some p) /\
  (forall n p, teamSize = Some n -> ToBoolean n = true ->
     r_cheapest r = Some p \/ r_mostExpensive r = Some p ->
     estimatedTeamCost p
     = (fun l => team_cost n <$> List.filter is_per_user l) <$> p_tiers p).
Proof.
  intros c r. destruct (stringify_summary items teamSize) as [Hc Hm].
  fold c r in Hc, Hm.
  assert (Hloc : forall l, cheapest c = Some l \/ mostExpensive c = Some l ->
            products c !! l = Some l /\
            exists item, items !! l = Some item /\
              r_products r !! l
              = Some (if truthy teamSize
                      then assign_team_cost (ToNumber teamSize) (product_of item)
                      else product_of item)).
  { intros l Hl. apply summary_lt in Hl. split.
    - unfold c. rewrite compare_products. apply lookup_seq. lia.
    - destruct (lookup_lt_is_Some_2 items l Hl) as [item Hitem].
      exists item. split; [done|]. by apply compare_result_lookup. }
  split_and!.
  - intros l Hl. destruct (Hloc l (or_introl Hl)) as (Hp & item & _ & Hr).
    eexists l, _. split_and!; [done|done|]. by rewrite Hc, Hl.
  - intros l Hl. destruct (Hloc l (or_intror Hl)) as (Hp & item & _ & Hr).
    eexists l, _. split_and!; [done|done|]. by rewrite Hm, Hl.
  - intros n p -> Hn Hp.
    assert (exists l, (cheapest c = Some l \/ mostExpensive c = Some l)
                      /\ r_products r !! l = Some p) as (l & Hl & Hlp).
    { destruct Hp as [Hp|Hp]; [rewrite Hc in Hp|rewrite Hm in Hp].
      - destruct (cheapest c) as [l|]; [|done]. exists l. by split; [left|].
      - destruct (mostExpensive c) as [l|]; [|done]. exists l. by split; [right|]. }
    destruct (Hloc l Hl) as (_ & item & _ & Hr).
    rewrite Hr in Hlp. simpl in Hlp. rewrite Hn in Hlp. by simplify_eq.
Qed.

End TeamCost.

(** ** The handlers *)

Section HandlerFacts.
Context {num : Type} `{!JSNumber num}.
Variable is_url : string -> bool.
Variable actor_call : ActorInput -> remote Run.
Variable listItems : string -> remote (list (@ExtractionRecord num)).
Implicit Types (fields : list (string * value num)).

Lemma parse_urls_Ok (l : list (value num)) (us : list string) :
  parse_urls is_url l = Ok us <->
  Forall2 (fun v u => v = VString u /\ is_url u = true) l us.
Proof.
  revert us. induction l as [|v l IH]; intros us; simpl.
  - split; [by intros [= <-]; constructor|]. by intros ->%Forall2_nil_inv_l.
  - split.
    + destruct v as [| | | |s| |]; simpl; try done.
      destruct (is_url s) eqn:Hs; [|done].
      destruct (parse_urls is_url l) as [ss|] eqn:Hl; [|done].
      intros [= <-]. constructor; [done|]. by apply IH.
    + intros (u & us' & [-> Hu] & Hl & ->)%Forall2_cons_inv_l.
      simpl. rewrite Hu. apply IH in Hl. by rewrite Hl.
Qed.

Lemma parse_urls_Throw (l : list (value num)) (e : Failure) :
  parse_urls is_url l = Throw e -> e = ValidationError.
Proof.
  destruct l as [|v l]; simpl; [done|].
  destruct (parse_url is_url v), (parse_urls is_url l); congruence.
Qed.

(** A failed validation of [urls] is caught before any call. *)
Lemma invalid_urls_no_call name fields e :
  name = "extract_saas_pricing" \/ name = "compare_saas_pricing" ->
  parse_url_array is_url (get fields "urls") = Throw e ->
  call_tool is_url actor_call listItems name (VObject fields)
  = ([], caught ValidationError).
Proof.
  intros [-> | ->] Hurls; unfold call_tool, handle; simpl;
    unfold ExtractPricingInput, ComparePricingInput; by rewrite Hurls.
Qed.

(** The [compare_saas_pricing] case when validation succeeds. *)
Lemma call_tool_compare fields us ts :
  parse_url_array is_url (get fields "urls") = Ok us ->
  parse_teamSize (get fields "teamSize") = Ok ts ->
  let input := {| c_urls := us; c_teamSize := ts |} in
  call_tool is_url actor_call listItems "compare_saas_pricing" (VObject fields)
  = match actor_call (compare_request input) with
    | Failed m =>
        ([ActorCall ACTOR_ID (compare_request input)], caught (ExtractionError m))
    | Done run =>
        ([ActorCall ACTOR_ID (compare_request input);
          DatasetListItems (defaultDatasetId run)],
         match listItems (defaultDatasetId run) with
         | Failed m => caught (ExtractionError m)
         | Done items => returned (JsonComparison (compare_result items ts))
         end)
    end.
Proof.
  intros Hus Hts input. unfold call_tool, handle, run_actor. simpl.
  unfold ComparePricingInput. rewrite Hus, Hts. fold input.
  destruct (actor_call (compare_request input)) as [run|m]; [|done].
  by destruct (listItems (defaultDatasetId run)).
Qed.

(** The [extract_saas_pricing] case when validation succeeds. *)
Lemma call_tool_extract fields us p f :
  parse_url_array is_url (get fields "urls") = Ok us ->
  parse_proxyTier (get fields "proxyTier") = Ok p ->
  parse_extractFeatures (get fields "extractFeatures") = Ok f ->
  let input := {| e_urls := us; e_proxyTier := p; e_extractFeatures := f |} in
  call_tool is_url actor_call listItems "extract_saas_pricing" (VObject fields)
  = match actor_call (extract_request input) with
    | Failed m =>
        ([ActorCall ACTOR_ID (extract_request input)], caught (ExtractionError m))
    | Done run =>
        ([ActorCall ACTOR_ID (extract_request input);
          DatasetListItems (defaultDatasetId run)],
         match listItems (defaultDatasetId run) with
         | Failed m => caught (ExtractionError m)
         | Done items => returned (JsonItems items)
         end)
    end.
Proof.
  intros Hus Hp Hf input. unfold call_tool, handle, run_actor. simpl.
  unfold ExtractPricingInput. rewrite Hus, Hp, Hf. fold input.
  destruct (actor_call (extract_request input)) as [run|m]; [|done].
  by destruct (listItems (defaultDatasetId run)).
Qed.

(** C5, as the code has it: the schemas ask for an array of well-formed
    URLs and set no minimum length, so an empty [urls] passes validation
    (with the other arguments absent) and the actor is called once, with
    no start URL; [urls] is rejected, before any call, when it is not an
    array or holds an element that is not a well-formed URL. *)
Theorem empty_urls_accepted name :
  name = "extract_saas_pricing" \/ name = "compare_saas_pricing" ->
  let out := call_tool is_url actor_call listItems name
               (VObject [("urls", VArray [])]) in
  (exists input, actor_calls out.1 = [input] /\ startUrls input = []) /\
  text out.2 <> ErrorMessage ValidationError /\
  (forall fields,
     (forall l, get fields "urls" <> VArray l) \/
     (exists l v, get fields "urls" = VArray l /\ v ∈ l /\
        forall u, v = VString u -> is_url u = false) ->
     call_tool is_url actor_call listItems name (VObject fields)
     = ([], caught ValidationError)).
Proof.
  intros Hname out.
  assert (Hout : (exists input, actor_calls out.1 = [input] /\ startUrls input = [])
                 /\ text out.2 <> ErrorMessage ValidationError).
  { destruct Hname as [-> | ->]; unfold out.
    - rewrite (call_tool_extract _ [] "datacenter" true) by done. cbv zeta.
      destruct (actor_call _) as [run|m]; [destruct (listItems _)|];
        (split; [by eexists|done]).
    - rewrite (call_tool_compare _ [] None) by done. cbv zeta.
      destruct (actor_call _) as [run|m]; [destruct (listItems _)|];
        (split; [by eexists|done]). }
  destruct Hout as [Hcalls Htext]. split_and!; [done|done|].
  intros fields Hbad.
  destruct (parse_url_array is_url (get fields "urls")) as [us|e] eqn:Hparse.
  - exfalso. destruct Hbad as [Hbad|(l & v & Hl & Hv & Hurl)].
    + destruct (get fields "urls"); try done. by eapply Hbad.
    + rewrite Hl in Hparse. simpl in Hparse.
      apply parse_urls_Ok in Hparse.
      apply list_elem_of_lookup in Hv as [k Hk].
      destruct (Forall2_lookup_l _ _ _ _ _ Hparse Hk) as (u & _ & -> & Hu).
      rewrite (Hurl u) in Hu; done.
  - by eapply invalid_urls_no_call.
Qed.

End HandlerFacts.

Section Responder.
Context {num : Type}.
Implicit Types (items : list (@ExtractionRecord num)).

(** C9: the text of [discover_pricing_page] depends on the first record
    only: when there is one and its [url] is set (and not the empty
    string, which is falsy) the text is ["Found pricing page: <url>"];
    otherwise it is ["Could not find pricing page for <requested url>"];
    the records after the first are not read. *)
Theorem discover_text_correct items requested :
  (forall r rest u,
     items = r :: rest -> url r = Some u -> u <> "" ->
     discover_text items requested = "Found pricing page: " +:+ u) /\
  (items = [] \/
   (exists r rest, items = r :: rest /\ (url r = None \/ url r = Some "")) ->
   discover_text items requested
   = "Could not find pricing page for " +:+ requested) /\
  (forall r rest,
     items = r :: rest -> discover_text items requested = discover_text [r] requested).
Proof.
  split_and!.
  - intros r rest u -> Hu Hne. unfold discover_text. simpl. rewrite Hu.
    destruct (String.eqb u "") eqn:E; [|done]. by apply String.eqb_eq in E.
  - intros [-> | (r & rest & -> & [Hu | Hu])]; unfold discover_text; simpl;
      by rewrite ?Hu.
  - by intros r rest ->.
Qed.

End Responder.

Section Claims.
Context {num : Type} `{!JSNumber num} `{!JSNumberLaws num}.
Variable is_url : string -> bool.
Variable actor_call : ActorInput -> remote Run.
Variable listItems : string -> remote (list (@ExtractionRecord num)).
Implicit Types (items : list (@ExtractionRecord num)) (teamSize : option num).
Implicit Types (fields : list (string * value num)).

(** C2: the [lowestPaidPrice] of a product is the least
    [normalizedMonthlyPrice] among the tiers of its item whose price is
    strictly greater than 0; it is [undefined] exactly when no tier has
    such a price; a tier priced 0 does not change it. *)
Theorem lowestPaidPrice_correct items teamSize i item :
  items !! i = Some item ->
  exists p, r_products (compare_result items teamSize) !! i = Some p /\
    (forall v, lowestPaidPrice p = Some v ->
       positive v = true /\
       exists l t, tiers item = Some l /\ t ∈ l /\
         normalizedMonthlyPrice t = Some v /\
         forall t' w, t' ∈ l -> normalizedMonthlyPrice t' = Some w ->
           positive w = true -> nlt w v = false) /\
    (lowestPaidPrice p = None <->
       forall l t w, tiers item = Some l -> t ∈ l ->
         normalizedMonthlyPrice t = Some w -> positive w = false) /\
    (forall l1 l2 t,
       tiers item = Some (l1 ++ t :: l2) ->
       normalizedMonthlyPrice t = Some num_0 ->
       lowestPaidPrice p = lowest_paid_price (Some (l1 ++ l2))).
Proof.
  intros Hi. eexists. split; [by apply compare_result_lookup|].
  assert (Hfield : lowestPaidPrice
            (if truthy teamSize
             then assign_team_cost (ToNumber teamSize) (product_of item)
             else product_of item) = lowest_paid_price (tiers item))
    by (by destruct (truthy teamSize)).
  rewrite Hfield. split_and!.
  - apply lowest_paid_price_Some.
  - rewrite lowest_paid_price_None. split.
    + intros Hall l t w Hl Ht Hw. specialize (Hall l t Hl Ht).
      unfold is_paid in Hall. by rewrite Hw in Hall.
    + intros Hall l t Hl Ht. destruct (is_paid t) eqn:Hpaid; [|done].
      apply is_paid_iff in Hpaid as (w & Hw & Hpos).
      by rewrite (Hall l t w) in Hpos.
  - intros l1 l2 t -> Ht. apply lowest_paid_price_skip. by apply is_paid_0.
Qed.

(** C6, as the code has it: a [teamSize] that is zero or negative passes
    validation.  With a negative [teamSize] the team cost is computed, and
    the costs of the tiers with a positive price are negative or zero;
    with a [teamSize] of zero the test [if (input.teamSize)] fails and no
    product gets an [estimatedTeamCost]. *)
Theorem nonpositive_teamSize fields us n run items :
  parse_url_array is_url (get fields "urls") = Ok us ->
  get fields "teamSize" = VNumber n ->
  actor_call (compare_request {| c_urls := us; c_teamSize := Some n |}) = Done run ->
  listItems (defaultDatasetId run) = Done items ->
  exists r,
    (call_tool is_url actor_call listItems "compare_saas_pricing" (VObject fields)).2
    = returned (JsonComparison r) /\
    (negative n = true ->
       (forall i item, items !! i = Some item ->
          exists p, r_products r !! i = Some p /\
            estimatedTeamCost p
            = (fun l => team_cost n <$> List.filter is_per_user l) <$> tiers item) /\
       (forall t, is_paid t = true ->
          nle (monthly (team_cost n t)) num_0 = true /\
          nle (yearly (team_cost n t)) num_0 = true)) /\
    (n = num_0 -> forall p, p ∈ r_products r -> estimatedTeamCost p = None).
Proof.
  intros Hus Hn Hrun Hitems. exists (compare_result items (Some n)).
  split_and!.
  - rewrite (call_tool_compare _ _ _ fields us (Some n)); [|done|by rewrite Hn].
    cbv zeta. by rewrite Hrun, Hitems.
  - intros Hneg. split.
    + intros i item Hi. eexists. split; [by apply compare_result_lookup|].
      simpl. by rewrite (ToBoolean_negative n Hneg).
    + intros t Hpaid. unfold team_cost, is_paid in *. simpl.
      pose proof (nmul_positive_negative _ _ Hpaid Hneg) as Hm.
      split; [done|]. by apply nmul_nonpositive_12.
  - intros -> p Hp. rewrite compare_result_products in Hp.
    apply list_elem_of_fmap in Hp as (item & -> & _).
    simpl. by rewrite ToBoolean_0.
Qed.

End Claims.

(** ** The claims on the sample inputs *)

Import QNum QNumLaws.

(** Products 0..4 have prices 10, 5, none, 10, 5: the cheapest is product
    1 and the most expensive product 0, the first of each tie. *)
Lemma cheapest_mostExpensive_witness :
  let items := [Examples.A; Examples.B; Examples.C; Examples.D; Examples.E] in
  cheapest (compare items None).1 = Some 1 /\
  mostExpensive (compare items None).1 = Some 0 /\
  first_cheapest (compare items None).2 1 /\
  first_most_expensive (compare items None).2 0.
Proof.
  intros items.
  destruct (cheapest_mostExpensive_correct (num := qnum) items None)
    as (_ & _ & H).
  destruct H as (i & j & Hi & Hj & Hc & Hm).
  { exists 0. vm_compute. discriminate. }
  assert (i = 1) as -> by (vm_compute in Hi; congruence).
  assert (j = 0) as -> by (vm_compute in Hj; congruence).
  split_and!; [reflexivity|reflexivity|exact Hc|exact Hm].
Defined.

Lemma lowestPaidPrice_witness :
  let items := [Examples.A; Examples.B; Examples.C] in
  items !! 1 = Some Examples.B /\
  exists p, r_products (compare_result items None) !! 1 = Some p /\
    lowestPaidPrice p = Some (int 5) /\
    (lowestPaidPrice p = None <->
       forall l t w, tiers Examples.B = Some l -> t ∈ l ->
         normalizedMonthlyPrice t = Some w -> positive w = false).
Proof.
  intros items. split; [reflexivity|].
  destruct (lowestPaidPrice_correct (num := qnum) items None 1 Examples.B eq_refl)
    as (p & Hp & _ & Hnone & _).
  exists p. split_and!; [exact Hp| |exact Hnone].
  vm_compute in Hp. injection Hp as <-. reflexivity.
Defined.

(** C3 is not what happens to a record without [tiers]: its
    [hasFreeTier] is [undefined], not [false]. *)
Lemma hasFreeTier_undefined_without_tiers :
  hasFreeTier <$> (r_products (compare_result [Examples.C] None) !! 0) = Some None /\
  hasFreeTier <$> (r_products (compare_result [Examples.C] None) !! 0)
    <> Some (Some false).
Proof. split; [reflexivity|discriminate]. Qed.

Lemma hasFreeTier_witness :
  let items := [Examples.A; Examples.B; Examples.C] in
  items !! 0 = Some Examples.A /\
  exists p, r_products (compare_result items None) !! 0 = Some p /\
    hasFreeTier p = Some true /\
    (hasFreeTier p = None <-> tiers Examples.A = None).
Proof.
  intros items. split; [reflexivity|].
  destruct (hasFreeTier_correct (num := qnum) items None 0 Examples.A eq_refl)
    as (p & Hp & _ & _ & Hnone).
  exists p. split_and!; [exact Hp| |exact Hnone].
  vm_compute in Hp. injection Hp as <-. reflexivity.
Defined.

(** C4 is not what happens with a [teamSize] of 0, which is supplied but
    falsy, nor to a record without [tiers]: in both cases the product has
    no [estimatedTeamCost], where the claim has one entry of cost 0 and
    an empty sequence. *)
Lemma estimatedTeamCost_absent :
  estimatedTeamCost
    <$> (r_products (compare_result [Examples.B] (Some (int 0))) !! 0) = Some None /\
  estimatedTeamCost
    <$> (r_products (compare_result [Examples.B] (Some (int 0))) !! 0)
    <> Some (Some [{| tier := Some "Team"; monthly := int 0; yearly := int 0 |}]) /\
  estimatedTeamCost
    <$> (r_products (compare_result [Examples.C] (Some (int 10))) !! 0) = Some None /\
  estimatedTeamCost
    <$> (r_products (compare_result [Examples.C] (Some (int 10))) !! 0)
    <> Some (Some []).
Proof. split_and!; (reflexivity || discriminate). Qed.

(** The scenario of the specification: [teamSize] 10 and a per-seat tier
    priced 8 give [monthly] 80 and [yearly] 960; the flat tier and the
    tier without [pricing] are left out. *)
Lemma estimatedTeamCost_witness :
  [Examples.B] !! 0 = Some Examples.B /\
  exists p, r_products (compare_result [Examples.B] (Some (int 10))) !! 0 = Some p /\
    estimatedTeamCost p
    = Some [{| tier := Some "Team"; monthly := int 80; yearly := int 960 |}].
Proof.
  split; [reflexivity|].
  destruct (estimatedTeamCost_correct (num := qnum) [Examples.B] (int 10) 0
              Examples.B eq_refl) as (p & Hp & Hcost & _ & _).
  exists p. split; [exact Hp|]. rewrite Hcost. reflexivity.
Defined.

(** C5 is not what happens with [urls: []]: both tools pass validation
    and call the actor, with no start URL. *)
Lemma empty_urls_reach_the_actor :
  call_tool Examples.starts_with_https Examples.run_ok (Examples.items_ok [])
    "extract_saas_pricing" (Examples.args_urls [])
  = ([ActorCall ACTOR_ID
        {| startUrls := [];
           proxyTier := Some "datacenter";
           extractFeatures := Some true;
           normalizePricing := Some true;
           maxRequestsPerCrawl := Some 5;
           discoverPricingPage := None |};
      DatasetListItems "dataset-1"],
     {| text := JsonItems []; isError := false |}) /\
  call_tool Examples.starts_with_https Examples.run_ok (Examples.items_ok [])
    "compare_saas_pricing" (Examples.args_urls [])
  = ([ActorCall ACTOR_ID
        {| startUrls := [];
           proxyTier := Some "datacenter";
           extractFeatures := Some true;
           normalizePricing := Some true;
           maxRequestsPerCrawl := None;
           discoverPricingPage := None |};
      DatasetListItems "dataset-1"],
     {| text := JsonComparison
                  {| r_products := []; r_cheapest := None;
                     r_mostExpensive := None; r_withFreeTier := [] |};
        isError := false |}).
Proof. split; reflexivity. Qed.

Lemma empty_urls_witness :
  let out := call_tool Examples.starts_with_https Examples.run_ok
               (Examples.items_ok []) "compare_saas_pricing"
               (VObject [("urls", VArray [])]) in
  ("compare_saas_pricing" = "extract_saas_pricing"
   \/ "compare_saas_pricing" = "compare_saas_pricing") /\
  (exists input, actor_calls out.1 = [input] /\ startUrls input = []) /\
  text out.2 <> ErrorMessage ValidationError /\
  call_tool Examples.starts_with_https Examples.run_ok (Examples.items_ok [])
    "compare_saas_pricing" (Examples.args_urls ["ftp.example.com"])
  = ([], {| text := ErrorMessage ValidationError; isError := true |}).
Proof.
  intros out. split; [by right|].
  destruct (empty_urls_accepted (num := qnum) Examples.starts_with_https
              Examples.run_ok (Examples.items_ok []) "compare_saas_pricing"
              (or_intror eq_refl)) as (Hcall & Htext & Hreject).
  split_and!; [exact Hcall|exact Htext|].
  apply Hreject. right. exists [VString "ftp.example.com"], (VString "ftp.example.com").
  split_and!; [reflexivity|left|]. by intros u [= <-].
Defined.

(** C6 is not what happens with a [teamSize] of 0: the call is accepted,
    but the team cost is not computed; the per-seat tier of the product
    gets no cost of 0. *)
Lemma zero_teamSize_skipped :
  let r := compare_result [Examples.B] (Some (int 0)) in
  call_tool Examples.starts_with_https Examples.run_ok (Examples.items_ok [Examples.B])
    "compare_saas_pricing" (Examples.args_team ["https://b.com/pricing"] 0)
  = ([ActorCall ACTOR_ID
        {| startUrls := [{| seed_url := "https://b.com/pricing" |}];
           proxyTier := Some "datacenter";
           extractFeatures := Some true;
           normalizePricing := Some true;
           maxRequestsPerCrawl := None;
           discoverPricingPage := None |};
      DatasetListItems "dataset-1"],
     {| text := JsonComparison r; isError := false |}) /\
  estimatedTeamCost <$> (r_products r !! 0) = Some None /\
  estimatedTeamCost <$> (r_products r !! 0)
    <> Some (Some [{| tier := Some "Team"; monthly := int 0; yearly := int 0 |}]).
Proof. split_and!; (reflexivity || discriminate). Qed.

(** A team of -2 seats: the per-seat tier priced 8 costs -16 a month and
    -192 a year. *)
Lemma nonpositive_teamSize_witness :
  let fields := [("urls", VArray [VString "https://b.com/pricing"]);
                 ("teamSize", VNumber (int (-2)))] in
  let us := ["https://b.com/pricing"] in
  let run := {| defaultDatasetId := "dataset-1" |} in
  parse_url_array Examples.starts_with_https (get fields "urls") = Ok us /\
  get fields "teamSize" = VNumber (int (-2)) /\
  Examples.run_ok (compare_request {| c_urls := us; c_teamSize := Some (int (-2)) |})
    = Done run /\
  Examples.items_ok [Examples.B] (defaultDatasetId run) = Done [Examples.B] /\
  negative (int (-2)) = true /\
  exists r p,
    (call_tool Examples.starts_with_https Examples.run_ok
       (Examples.items_ok [Examples.B]) "compare_saas_pricing" (VObject fields)).2
    = returned (JsonComparison r) /\
    r_products r !! 0 = Some p /\
    estimatedTeamCost p
    = Some [{| tier := Some "Team"; monthly := int (-16); yearly := int (-192) |}].
Proof.
  intros fields us run. split_and!; [reflexivity..|].
  destruct (nonpositive_teamSize (num := qnum) Examples.starts_with_https
              Examples.run_ok (Examples.items_ok [Examples.B]) fields us
              (int (-2)) run [Examples.B] eq_refl eq_refl eq_refl eq_refl)
    as (r & Hr & Hneg & _).
  destruct (Hneg eq_refl) as [Hcost _].
  destruct (Hcost 0 Examples.B eq_refl) as (p & Hp & Hp').
  exists r, p. split_and!; [exact Hr|exact Hp|]. rewrite Hp'. reflexivity.
Defined.

(** C7, evaluated at [urls: ["https://a.com/pricing"]]: one actor call is
    made, with the [{url}] seed, [proxyTier: "datacenter"],
    [extractFeatures: true] and [normalizePricing: true], but with no
    [maxRequestsPerCrawl], where the claim has [urls.length + 5]; the
    request of [extract_saas_pricing] for the same [urls] has
    [maxRequestsPerCrawl: 6]. *)
Theorem compare_request_without_crawl_budget :
  actor_calls
    (call_tool Examples.starts_with_https Examples.run_ok
       (Examples.items_ok [Examples.A]) "compare_saas_pricing"
       (Examples.args_urls ["https://a.com/pricing"])).1
  = [{| startUrls := [{| seed_url := "https://a.com/pricing" |}];
        proxyTier := Some "datacenter";
        extractFeatures := Some true;
        normalizePricing := Some true;
        maxRequestsPerCrawl := None;
        discoverPricingPage := None |}] /\
  actor_calls
    (call_tool Examples.starts_with_https Examples.run_ok
       (Examples.items_ok [Examples.A]) "extract_saas_pricing"
       (Examples.args_urls ["https://a.com/pricing"])).1
  = [{| startUrls := [{| seed_url := "https://a.com/pricing" |}];
        proxyTier := Some "datacenter";
        extractFeatures := Some true;
        normalizePricing := Some true;
        maxRequestsPerCrawl := Some 6;
        discoverPricingPage := None |}].
Proof. split; reflexivity. Qed.

(** The discovery scenarios of the specification. *)
Example discover_text_found :
  discover_text (num := qnum)
    [{| productName := None; url := Some "https://x.com/pricing"; tiers := None |};
     Examples.A]
    "https://x.com"
  = "Found pricing page: https://x.com/pricing".
Proof. reflexivity. Qed.

Example discover_text_not_found :
  discover_text (num := qnum) [] "https://x.com"
  = "Could not find pricing page for https://x.com".
Proof. reflexivity. Qed.

(** With a team of 10, the cheapest product, printed under [summary],
    shows the [estimatedTeamCost] assigned to the entry of [products]. *)
Example summary_shows_team_cost :
  let r := compare_result [Examples.A; Examples.B] (Some (int 10)) in
  r_cheapest r = r_products r !! 1 /\
  estimatedTeamCost <$> r_cheapest r
  = Some (Some [{| tier := Some "Team"; monthly := int 80; yearly := int 960 |}]).
Proof. split; reflexivity. Qed.

(** * Further properties of the handlers *)

(** ** The three schemas *)

Section Schemas.
Context {num : Type} `{!JSNumber num}.
Variable is_url : string -> bool.
Implicit Types (fields : list (string * value num)) (v : value num).

Lemma Forall2_VString (l : list (value num)) (us : list string) :
  Forall2 (fun v u => v = VString u /\ is_url u = true) l us <->
  l = VString <$> us /\ Forall (fun u => is_url u = true) us.
Proof.
  split.
  - induction 1 as [|v u l us [-> Hu] _ [-> IH]]; [by split|].
    split; [done|by constructor].
  - intros [-> Hus]. induction Hus as [|u us Hu _ IH]; constructor; auto.
Qed.

(** [z.array(z.string().url())] accepts exactly the arrays of strings
    that pass the URL test, the empty one included, and returns the
    strings in their order; no element is converted, dropped or
    deduplicated. *)
Lemma parse_url_array_accepts v us :
  parse_url_array is_url v = Ok us <->
  v = VArray (VString <$> us) /\ Forall (fun u => is_url u = true) us.
Proof.
  destruct v as [| | | | |l|]; simpl;
    try (split; [done|by intros [? _]]).
  rewrite parse_urls_Ok, Forall2_VString. split.
  - by intros [-> ?].
  - by intros [[= ->] ?].
Qed.

Lemma parse_url_array_fails v e :
  parse_url_array is_url v = Throw e -> e = ValidationError.
Proof. destruct v; simpl; try congruence. apply parse_urls_Throw. Qed.

(** X1: [ExtractPricingInput.parse] succeeds exactly on an object whose
    [urls] is an array of well-formed URLs, whose [proxyTier] is absent
    (then ["datacenter"]) or one of the two strings of the enum, and whose
    [extractFeatures] is absent (then [true]) or a boolean. *)
Theorem ExtractPricingInput_accepts (args : value num) (input : ExtractPricing) :
  ExtractPricingInput is_url args = Ok input <->
  exists fields, args = VObject fields /\
    get fields "urls" = VArray (VString <$> e_urls input) /\
    Forall (fun u => is_url u = true) (e_urls input) /\
    (get fields "proxyTier" = VUndefined /\ e_proxyTier input = "datacenter" \/
     get fields "proxyTier" = VString (e_proxyTier input) /\
       (e_proxyTier input = "datacenter" \/ e_proxyTier input = "residential")) /\
    (get fields "extractFeatures" = VUndefined /\ e_extractFeatures input = true \/
     get fields "extractFeatures" = VBoolean (e_extractFeatures input)).
Proof.
  destruct input as [us p f]. simpl. split.
  - destruct args as [| | | | | |fields]; simpl; try done.
    destruct (parse_url_array is_url (get fields "urls")) as [us'|] eqn:Hus;
      [|done].
    destruct (parse_proxyTier (get fields "proxyTier")) as [p'|] eqn:Hp; [|done].
    destruct (parse_extractFeatures (get fields "extractFeatures")) as [f'|] eqn:Hf;
      [|done].
    intros [= -> -> ->]. apply parse_url_array_accepts in Hus as [Hus Hall].
    exists fields. split_and!; [done|done|done| |].
    + destruct (get fields "proxyTier") as [| | | |s| |]; simpl in Hp; try done.
      * left. split; congruence.
      * right. destruct (String.eqb s "datacenter") eqn:E1; simpl in Hp.
        -- apply String.eqb_eq in E1. simplify_eq. by split; [|left].
        -- destruct (String.eqb s "residential") eqn:E2; [|done].
           apply String.eqb_eq in E2. simplify_eq. by split; [|right].
    + destruct (get fields "extractFeatures") as [| |b| | | |]; simpl in Hf;
        try done; simplify_eq; [by left|by right].
  - intros (fields & -> & Hus & Hall & Hp & Hf). simpl.
    assert (parse_url_array is_url (get fields "urls") = Ok us) as ->
      by (by apply parse_url_array_accepts).
    assert (parse_proxyTier (get fields "proxyTier") = Ok p) as ->.
    { destruct Hp as [[-> ->]|[-> [-> | ->]]]; done. }
    assert (parse_extractFeatures (get fields "extractFeatures") = Ok f) as ->.
    { destruct Hf as [[-> ->]| ->]; done. }
    done.
Qed.

(** X3: [DiscoverPricingInput.parse] succeeds exactly on an object whose
    [url] is a string that passes the URL test. *)
Theorem DiscoverPricingInput_accepts (args : value num) (input : DiscoverPricing) :
  DiscoverPricingInput is_url args = Ok input <->
  exists fields, args = VObject fields /\
    get fields "url" = VString (d_url input) /\ is_url (d_url input) = true.
Proof.
  destruct input as [u]. simpl. split.
  - destruct args as [| | | | | |fields]; simpl; try done.
    destruct (get fields "url") as [| | | |s| |] eqn:Hu; simpl; try done.
    destruct (is_url s) eqn:Hs; [|done]. intros [= ->]. by exists fields.
  - intros (fields & -> & Hu & Hs). simpl. rewrite Hu. simpl. by rewrite Hs.
Qed.

Lemma ExtractPricingInput_fails (args : value num) e :
  ExtractPricingInput is_url args = Throw e -> e = ValidationError.
Proof.
  destruct args as [| | | | | |fields]; simpl; try congruence.
  destruct (parse_url_array is_url (get fields "urls")),
    (parse_proxyTier (get fields "proxyTier")),
    (parse_extractFeatures (get fields "extractFeatures")); congruence.
Qed.

Lemma ComparePricingInput_fails (args : value num) e :
  ComparePricingInput is_url args = Throw e -> e = ValidationError.
Proof.
  destruct args as [| | | | | |fields]; simpl; try congruence.
  destruct (parse_url_array is_url (get fields "urls")),
    (parse_teamSize (get fields "teamSize")); congruence.
Qed.

Lemma DiscoverPricingInput_fails (args : value num) e :
  DiscoverPricingInput is_url args = Throw e -> e = ValidationError.
Proof.
  destruct args as [| | | | | |fields]; simpl; try congruence.
  destruct (get fields "url") as [| | | |s| |]; simpl; try congruence.
  destruct (is_url s); congruence.
Qed.

End Schemas.

(** ** The request handler *)

Section Dispatch.
Context {num : Type} `{!JSNumber num}.
Variable is_url : string -> bool.
Variable actor_call : ActorInput -> remote Run.
Variable listItems : string -> remote (list (@ExtractionRecord num)).
Implicit Types (fields : list (string * value num)) (args : value num).

Local Abbreviation call := (call_tool is_url actor_call listItems).

Lemma handle_eq {I : Type} (parse : result I) (request : I -> ActorInput)
    (respond : I -> list (@ExtractionRecord num) -> Text num) :
  handle actor_call listItems parse request respond
  = match parse with
    | Throw e => ([], caught e)
    | Ok input =>
        match actor_call (request input) with
        | Failed m =>
            ([ActorCall ACTOR_ID (request input)], caught (ExtractionError m))
        | Done run =>
            ([ActorCall ACTOR_ID (request input);
              DatasetListItems (defaultDatasetId run)],
             match listItems (defaultDatasetId run) with
             | Failed m => caught (ExtractionError m)
             | Done items => returned (respond input items)
             end)
        end
    end.
Proof.
  unfold handle, run_actor. destruct parse as [input|e]; [|done].
  destruct (actor_call (request input)) as [run|m]; [|done].
  by destruct (listItems (defaultDatasetId run)).
Qed.

(** X5: A failed validation is caught before anything is sent: no actor call,
    no dataset listing, and the result is the validation error. *)
Theorem invalid_arguments_no_call args e :
  (ExtractPricingInput is_url args = Throw e ->
   call "extract_saas_pricing" args = ([], caught ValidationError)) /\
  (ComparePricingInput is_url args = Throw e ->
   call "compare_saas_pricing" args = ([], caught ValidationError)) /\
  (DiscoverPricingInput is_url args = Throw e ->
   call "discover_pricing_page" args = ([], caught ValidationError)).
Proof.
  split_and!; intros Hparse; unfold call_tool; simpl; rewrite handle_eq, Hparse.
  - by apply ExtractPricingInput_fails in Hparse as ->.
  - by apply ComparePricingInput_fails in Hparse as ->.
  - by apply DiscoverPricingInput_fails in Hparse as ->.
Qed.

(** X6: The names the handler dispatches are the names of [tools]: the result
    is the unknown-tool error exactly for the other names, and then
    nothing is validated or called. *)
Theorem unknown_tool_iff (name : string) args :
  call name args
  = ([], {| text := Plain ("Unknown tool: " +:+ name); isError := true |})
  <-> name ∉ tool_name <$> list_tools.
Proof.
  assert (Hhandle : forall (I : Type) (parse : result I) request respond s,
    handle actor_call listItems parse request respond
    <> ([], {| text := Plain s; isError := true |})).
  { intros I parse request respond s. rewrite handle_eq.
    destruct parse as [input|e]; [|done].
    destruct (actor_call (request input)) as [run|m]; done. }
  unfold list_tools, tools. simpl.
  rewrite !not_elem_of_cons. unfold call_tool.
  destruct (String.eqb name "extract_saas_pricing") eqn:E1.
  { apply String.eqb_eq in E1. split; [by intros ?%Hhandle|tauto]. }
  destruct (String.eqb name "compare_saas_pricing") eqn:E2.
  { apply String.eqb_eq in E2. split; [by intros ?%Hhandle|tauto]. }
  destruct (String.eqb name "discover_pricing_page") eqn:E3.
  { apply String.eqb_eq in E3. split; [by intros ?%Hhandle|tauto]. }
  apply String.eqb_neq in E1, E2, E3. split; [|done].
  intros _. split_and!; [done..|apply not_elem_of_nil].
Qed.

End Dispatch.

(** ** What [tools] advertises and what the handler does *)

(** Case analysis on a member of a literal list. *)
Ltac list_cases H :=
  repeat (apply elem_of_cons in H as [->|H]); [..|by apply elem_of_nil in H].

Section Advertised.
Context {num : Type} `{!JSNumber num}.
Variable is_url : string -> bool.
Variable actor_call : ActorInput -> remote Run.
Variable listItems : string -> remote (list (@ExtractionRecord num)).
Implicit Types (fields : list (string * value num)) (args : value num).

Local Abbreviation call := (call_tool is_url actor_call listItems).

(** X7: Every key a tool lists under [required] is enforced: when it is
    missing from the arguments, the call is rejected before any remote
    call. *)
Theorem required_keys_enforced (tool : Tool) (key : string) fields :
  tool ∈ list_tools ->
  key ∈ tool_required tool ->
  get fields key = VUndefined ->
  call (tool_name tool) (VObject fields) = ([], caught ValidationError).
Proof.
  intros Htool Hkey Hget. unfold list_tools, tools in Htool.
  list_cases Htool; simpl in Hkey; list_cases Hkey;
    unfold call_tool; simpl; rewrite handle_eq.
  - unfold ExtractPricingInput. by rewrite Hget.
  - unfold ComparePricingInput. by rewrite Hget.
  - unfold DiscoverPricingInput. by rewrite Hget.
Qed.

(** X8: Arguments that are not an object (missing arguments included) are
    rejected by every tool before any remote call. *)
Theorem non_object_arguments_rejected (tool : Tool) args :
  tool ∈ list_tools ->
  (forall fields, args <> VObject fields) ->
  call (tool_name tool) args = ([], caught ValidationError).
Proof.
  intros Htool Hargs. unfold list_tools, tools in Htool.
  list_cases Htool; unfold call_tool; simpl; rewrite handle_eq;
    destruct args; try done; by edestruct Hargs.
Qed.

(** X9: A tool reads only the keys it lists under [properties]: two argument
    objects that agree on them give the same calls and the same result.
    In particular [compare_saas_pricing] ignores [proxyTier] and
    [extractFeatures]. *)
Theorem only_listed_properties_read (tool : Tool) fields1 fields2 :
  tool ∈ list_tools ->
  (forall p, p ∈ tool_properties tool ->
     get fields1 (prop_key p) = get fields2 (prop_key p)) ->
  call (tool_name tool) (VObject fields1) = call (tool_name tool) (VObject fields2).
Proof.
  intros Htool Hsame. unfold list_tools, tools in Htool.
  list_cases Htool; simpl in Hsame;
    repeat match goal with
    | H : forall p, p ∈ ?q :: ?l -> _ |- _ =>
        pose proof (H q (list_elem_of_here _ _));
        assert (forall p, p ∈ l -> get fields1 (prop_key p) = get fields2 (prop_key p))
          by (intros p' Hp'; apply H; by right);
        clear H
    end; simpl in *; unfold call_tool; simpl;
    unfold ExtractPricingInput, ComparePricingInput, DiscoverPricingInput;
    repeat match goal with
    | H : get fields1 _ = get fields2 _ |- _ => rewrite H; clear H
    end; done.
Qed.

(** X10: The defaults that [tools] advertises are the ones that are applied:
    leaving out a property that has a [default] is the same as passing
    that default. *)
Theorem advertised_defaults_applied (tool : Tool) (p : Property) (d : Default) fields :
  tool ∈ list_tools ->
  p ∈ tool_properties tool ->
  prop_default p = Some d ->
  get fields (prop_key p) = VUndefined ->
  call (tool_name tool) (VObject ((prop_key p, default_value d) :: fields))
  = call (tool_name tool) (VObject fields).
Proof.
  intros Htool Hp Hd Hget. unfold list_tools, tools in Htool.
  list_cases Htool; simpl in Hp; list_cases Hp; simpl in Hd; simplify_eq;
    simpl in Hget; unfold call_tool; simpl; unfold ExtractPricingInput; simpl;
    by rewrite Hget.
Qed.

End Advertised.

(** ** The requests of [extract_saas_pricing] and [discover_pricing_page] *)

Section Requests.
Context {num : Type} `{!JSNumber num}.
Variable is_url : string -> bool.
Variable actor_call : ActorInput -> remote Run.
Variable listItems : string -> remote (list (@ExtractionRecord num)).
Implicit Types (args : value num).

Local Abbreviation call := (call_tool is_url actor_call listItems).

(** X11: A valid [extract_saas_pricing] call makes exactly one actor call: one
    [{url}] seed per URL, in the order given and without deduplication,
    the validated [proxyTier] and [extractFeatures], [normalizePricing]
    set, [maxRequestsPerCrawl] equal to the number of URLs plus 5, and no
    [discoverPricingPage] key.  When the run and the listing succeed, the
    items are returned as they are. *)
Theorem extract_saas_pricing_request args (input : ExtractPricing) :
  ExtractPricingInput is_url args = Ok input ->
  exists req,
    actor_calls (call "extract_saas_pricing" args).1 = [req] /\
    seed_url <$> startUrls req = e_urls input /\
    proxyTier req = Some (e_proxyTier input) /\
    extractFeatures req = Some (e_extractFeatures input) /\
    normalizePricing req = Some true /\
    maxRequestsPerCrawl req = Some (length (e_urls input) + 5) /\
    discoverPricingPage req = None /\
    (forall run items,
       actor_call req = Done run ->
       listItems (defaultDatasetId run) = Done items ->
       (call "extract_saas_pricing" args).2
       = {| text := JsonItems items; isError := false |}).
Proof.
  intros Hparse. exists (extract_request input).
  unfold call_tool. simpl. rewrite handle_eq, Hparse.
  split_and!; try done.
  - by destruct (actor_call (extract_request input)).
  - simpl. rewrite <- list_fmap_compose. apply list_fmap_id.
  - intros run items Hrun Hitems. by rewrite Hrun, Hitems.
Qed.

(** X12: A valid [discover_pricing_page] call makes exactly one actor call:
    the requested URL as the only seed, [discoverPricingPage] set,
    [maxRequestsPerCrawl] 5 and none of the extraction keys.  When the run
    and the listing succeed, the result is the found / not-found line for
    the requested URL and is not an error, also when no record came
    back. *)
Theorem discover_pricing_page_request args (input : DiscoverPricing) :
  DiscoverPricingInput is_url args = Ok input ->
  exists req,
    actor_calls (call "discover_pricing_page" args).1 = [req] /\
    startUrls req = [{| seed_url := d_url input |}] /\
    discoverPricingPage req = Some true /\
    maxRequestsPerCrawl req = Some 5 /\
    proxyTier req = None /\ extractFeatures req = None /\
    normalizePricing req = None /\
    (forall run items,
       actor_call req = Done run ->
       listItems (defaultDatasetId run) = Done items ->
       (call "discover_pricing_page" args).2
       = {| text := Plain (discover_text items (d_url input)); isError := false |}).
Proof.
  intros Hparse. exists (discover_request input).
  unfold call_tool. simpl. rewrite handle_eq, Hparse.
  split_and!; try done.
  - by destruct (actor_call (discover_request input)).
  - intros run items Hrun Hitems. by rewrite Hrun, Hitems.
Qed.

End Requests.

(** ** More on the comparison *)

Section MoreComparison.
Context {num : Type} `{!JSNumber num}.
Implicit Types (items : list (@ExtractionRecord num)) (teamSize : option num).

(** [hasFreeTier] tested for truthiness. *)
Local Abbreviation has_free := (fun p : @Product num => default false (hasFreeTier p)).

Lemma map_filter_fmap {A B C : Type} (f : A -> B) (g : B -> bool) (h : B -> C)
    (l : list A) :
  h <$> List.filter g (f <$> l) = (fun x => h (f x)) <$> List.filter (fun x => g (f x)) l.
Proof.
  induction l as [|x l IH]; [done|]. rewrite fmap_cons. simpl.
  destruct (g (f x)); [|done]. by rewrite !fmap_cons, IH.
Qed.

(** X13: [summary.withFreeTier] holds, in the order of [products], the [name]
    of every printed product whose [hasFreeTier] is [true], and nothing
    else: a product without a name contributes [undefined], a product
    whose [hasFreeTier] is [false] or missing contributes nothing. *)
Theorem withFreeTier_names items teamSize :
  let r := compare_result items teamSize in
  r_withFreeTier r = p_name <$> List.filter has_free (r_products r) /\
  length (r_withFreeTier r) <= length (r_products r).
Proof.
  cbv zeta.
  assert (Heq : r_withFreeTier (compare_result items teamSize)
    = p_name <$> List.filter has_free (r_products (compare_result items teamSize))).
  { rewrite withFreeTier_correct, compare_result_products, map_filter_fmap.
    erewrite List.filter_ext.
    - apply list_fmap_ext. intros _ item _. by destruct (truthy teamSize).
    - intros item. by destruct (truthy teamSize). }
  split; [done|]. rewrite Heq, length_fmap. apply List.filter_length_le.
Qed.

(** X14: [teamSize] changes [estimatedTeamCost] and nothing else: the summary
    references and [withFreeTier] are those of the call without
    [teamSize], every product keeps its other fields, and without a
    truthy [teamSize] no product has an [estimatedTeamCost]. *)
Theorem teamSize_only_sets_estimatedTeamCost items teamSize :
  (compare items teamSize).1 = (compare items None).1 /\
  length (r_products (compare_result items teamSize))
  = length (r_products (compare_result items None)) /\
  (forall i p,
     r_products (compare_result items teamSize) !! i = Some p ->
     exists p0,
       r_products (compare_result items None) !! i = Some p0 /\
       estimatedTeamCost p0 = None /\
       p_name p = p_name p0 /\ p_url p = p_url p0 /\
       tierCount p = tierCount p0 /\ hasFreeTier p = hasFreeTier p0 /\
       lowestPaidPrice p = lowestPaidPrice p0 /\ p_tiers p = p_tiers p0 /\
       (truthy teamSize = false -> p = p0)).
Proof.
  split_and!.
  - unfold compare. by rewrite alloc_map_spec.
  - by rewrite !compare_result_products, !length_fmap.
  - intros i p. rewrite !compare_result_products, !list_lookup_fmap.
    destruct (items !! i) as [item|]; [|done]. simpl. intros [= <-].
    exists (product_of item). split; [done|].
    destruct (truthy teamSize); by split_and!.
Qed.

End MoreComparison.

Section SummaryConsistent.
Context {num : Type} `{!JSNumber num} `{!JSNumberLaws num}.
Implicit Types (items : list (@ExtractionRecord num)) (teamSize : option num).

(** X15: [summary.cheapest] and [summary.mostExpensive] are set together or
    not at all; when set, both are products with a strictly positive
    [lowestPaidPrice], and the price of the cheapest is not above the
    price of the most expensive. *)
Theorem summary_consistent items teamSize :
  let c := (compare items teamSize).1 in
  let h := (compare items teamSize).2 in
  (cheapest c = None <-> mostExpensive c = None) /\
  (forall i j, cheapest c = Some i -> mostExpensive c = Some j ->
     exists vi vj,
       price_at h i = Some vi /\ price_at h j = Some vj /\
       positive vi = true /\ positive vj = true /\
       nlt vj vi = false).
Proof.
  intros c h. destruct (compare_summary items teamSize) as [Hc Hm].
  fold c in Hc, Hm. cbv zeta in Hc, Hm.
  set (h0 := product_of <$> items) in *.
  set (paid := List.filter _ _) in *.
  assert (Hpaid : forall k, k ∈ paid <-> exists v, price_at h0 k = Some v)
    by apply elem_of_paidProducts.
  assert (HD : Forall (fun l => positive (ToNumber (price_at h0 l)) = true) paid).
  { apply Forall_forall. intros k Hk. apply Hpaid in Hk as [v Hv].
    rewrite Hv. simpl. by eapply price_at_positive. }
  destruct (decide (paid = [])) as [Hnil|Hne].
  { rewrite Hnil in Hc, Hm. simpl in Hc, Hm. rewrite Hc, Hm.
    split; [done|]. by intros i j. }
  assert ((0 <? length paid) = true) as Hlen.
  { apply Nat.ltb_lt. destruct paid; [done|simpl; lia]. }
  rewrite Hlen in Hc, Hm.
  destruct (head_sort_is_Some (ascending h0) paid Hne) as [i0 Hi0].
  assert (Hne' : sort (ascending h0) paid <> []).
  { intros E. by rewrite E in Hi0. }
  destruct (head_sort_is_Some (descending h0) _ Hne') as [j0 Hj0].
  rewrite Hi0 in Hc. rewrite Hj0 in Hm. rewrite Hc, Hm.
  split; [done|]. intros i j [= <-] [= <-].
  assert (Hj : j0 ∈ paid).
  { apply head_sort_elem_of in Hj0. unfold sort in Hj0.
    by apply sort_by_elem_of in Hj0. }
  destruct (head_sort_ascending (fun l => ToNumber (price_at h0 l))
              paid i0 HD Hi0) as (l1 & l2 & Hsplit & H1 & H2).
  rewrite Forall_forall in H1, H2.
  assert (Hi : i0 ∈ paid) by (rewrite Hsplit; apply elem_of_app; right; left).
  destruct (proj1 (Hpaid i0) Hi) as [vi Hvi].
  destruct (proj1 (Hpaid j0) Hj) as [vj Hvj].
  exists vi, vj. unfold h. rewrite !price_at_compare. fold h0.
  split_and!; [done|done|by eapply price_at_positive|by eapply price_at_positive|].
  rewrite Hvi in H1, H2. simpl in H1, H2.
  rewrite Hsplit, elem_of_app, elem_of_cons in Hj.
  destruct Hj as [Hj|[->|Hj]].
  - specialize (H1 j0 Hj). rewrite Hvj in H1. simpl in H1.
    destruct (nlt vj vi) eqn:E; [|done].
    rewrite <- (nlt_irrefl vj). symmetry. by apply (nlt_trans vj vi vj).
  - rewrite Hvi in Hvj. simplify_eq. apply nlt_irrefl.
  - specialize (H2 j0 Hj). by rewrite Hvj in H2.
Qed.

End SummaryConsistent.

(** ** The further properties on sample inputs *)

(** [compare_saas_pricing] with a team size and no [urls]. *)
Lemma required_keys_enforced_witness :
  exists tool,
    list_tools !! 1 = Some tool /\
    tool ∈ list_tools /\
    "urls" ∈ tool_required tool /\
    get [("teamSize", VNumber (int 5))] "urls" = @VUndefined qnum /\
    call_tool Examples.starts_with_https Examples.run_ok (Examples.items_ok [])
      "compare_saas_pricing" (VObject [("teamSize", VNumber (int 5))])
    = ([], caught ValidationError).
Proof.
  eexists. split; [reflexivity|].
  assert (Htool : ∀ t, list_tools !! 1 = Some t -> t ∈ list_tools)
    by (intros t Ht; by eapply list_elem_of_lookup_2).
  specialize (Htool _ eq_refl).
  assert (Hkey : "urls" ∈ ["urls"]) by left.
  split_and!; [exact Htool|exact Hkey|reflexivity|].
  exact (required_keys_enforced (num := qnum) Examples.starts_with_https
           Examples.run_ok (Examples.items_ok []) _ "urls"
           [("teamSize", VNumber (int 5))] Htool Hkey eq_refl).
Defined.

(** [extract_saas_pricing] with an array in place of the arguments. *)
Lemma non_object_arguments_witness :
  exists tool,
    list_tools !! 0 = Some tool /\
    tool ∈ list_tools /\
    (forall fields, VArray [VString "https://a.com/pricing"] <> @VObject qnum fields) /\
    call_tool Examples.starts_with_https Examples.run_ok (Examples.items_ok [])
      "extract_saas_pricing" (VArray [VString "https://a.com/pricing"])
    = ([], caught ValidationError).
Proof.
  eexists. split; [reflexivity|].
  assert (Htool : ∀ t, list_tools !! 0 = Some t -> t ∈ list_tools)
    by (intros t Ht; by eapply list_elem_of_lookup_2).
  specialize (Htool _ eq_refl).
  assert (Hargs : forall fields,
            VArray [VString "https://a.com/pricing"] <> @VObject qnum fields)
    by (intros fields; discriminate).
  split_and!; [exact Htool|exact Hargs|].
  exact (non_object_arguments_rejected (num := qnum) Examples.starts_with_https
           Examples.run_ok (Examples.items_ok []) _ _ Htool Hargs).
Defined.

(** [compare_saas_pricing] with and without a residential proxy asked
    for. *)
Lemma only_listed_properties_witness :
  let fields1 := [("urls", VArray [VString "https://a.com/pricing"]);
                  ("proxyTier", VString "residential");
                  ("extractFeatures", VBoolean false)] in
  let fields2 := [("urls", VArray [VString "https://a.com/pricing"])] in
  exists tool,
    list_tools !! 1 = Some tool /\
    tool ∈ list_tools /\
    (forall p, p ∈ tool_properties tool ->
       get fields1 (prop_key p) = @get qnum fields2 (prop_key p)) /\
    call_tool Examples.starts_with_https Examples.run_ok
      (Examples.items_ok [Examples.A]) "compare_saas_pricing" (VObject fields1)
    = call_tool Examples.starts_with_https Examples.run_ok
        (Examples.items_ok [Examples.A]) "compare_saas_pricing" (VObject fields2).
Proof.
  intros fields1 fields2. eexists. split; [reflexivity|].
  assert (Htool : ∀ t, list_tools !! 1 = Some t -> t ∈ list_tools)
    by (intros t Ht; by eapply list_elem_of_lookup_2).
  specialize (Htool _ eq_refl).
  match type of Htool with ?t ∈ _ =>
    assert (Hsame : forall p, p ∈ tool_properties t ->
              get fields1 (prop_key p) = @get qnum fields2 (prop_key p))
  end.
  { intros p Hp. simpl in Hp. list_cases Hp; reflexivity. }
  split_and!; [exact Htool|exact Hsame|].
  exact (only_listed_properties_read (num := qnum) Examples.starts_with_https
           Examples.run_ok (Examples.items_ok [Examples.A]) _ fields1 fields2
           Htool Hsame).
Defined.

(** [extract_saas_pricing] without [proxyTier] and with the advertised
    default. *)
Lemma advertised_defaults_witness :
  let fields := [("urls", VArray [VString "https://a.com/pricing"])] in
  exists tool p,
    list_tools !! 0 = Some tool /\
    tool_properties tool !! 1 = Some p /\
    tool ∈ list_tools /\
    p ∈ tool_properties tool /\
    prop_default p = Some (DefaultString "datacenter") /\
    @get qnum fields (prop_key p) = VUndefined /\
    call_tool Examples.starts_with_https Examples.run_ok
      (Examples.items_ok [Examples.A]) "extract_saas_pricing"
      (VObject (("proxyTier", VString "datacenter") :: fields))
    = call_tool Examples.starts_with_https Examples.run_ok
        (Examples.items_ok [Examples.A]) "extract_saas_pricing" (VObject fields).
Proof.
  intros fields. eexists _, _. split; [reflexivity|]. split; [reflexivity|].
  assert (Htool : ∀ t, list_tools !! 0 = Some t -> t ∈ list_tools)
    by (intros t Ht; by eapply list_elem_of_lookup_2).
  specialize (Htool _ eq_refl).
  match type of Htool with ?t ∈ _ =>
    assert (Hp : ∀ q, tool_properties t !! 1 = Some q -> q ∈ tool_properties t)
      by (intros q Hq; by eapply list_elem_of_lookup_2)
  end.
  specialize (Hp _ eq_refl).
  split_and!; [exact Htool|exact Hp|reflexivity|reflexivity|].
  exact (advertised_defaults_applied (num := qnum) Examples.starts_with_https
           Examples.run_ok (Examples.items_ok [Examples.A]) _ _
           (DefaultString "datacenter") fields Htool Hp eq_refl eq_refl).
Defined.

(** Two URLs, one of them twice, through a residential proxy: three seeds
    and a budget of 8. *)
Lemma extract_saas_pricing_witness :
  let us := ["https://a.com/pricing"; "https://b.com/pricing";
             "https://a.com/pricing"] in
  let args := VObject [("urls", VArray (VString <$> us));
                       ("proxyTier", VString "residential")] in
  let input := {| e_urls := us; e_proxyTier := "residential";
                  e_extractFeatures := true |} in
  ExtractPricingInput (num := qnum) Examples.starts_with_https args = Ok input /\
  exists req,
    actor_calls
      (call_tool Examples.starts_with_https Examples.run_ok
         (Examples.items_ok [Examples.A; Examples.B]) "extract_saas_pricing" args).1
    = [req] /\
    seed_url <$> startUrls req = us /\
    proxyTier req = Some "residential" /\
    maxRequestsPerCrawl req = Some 8 /\
    (call_tool Examples.starts_with_https Examples.run_ok
       (Examples.items_ok [Examples.A; Examples.B]) "extract_saas_pricing" args).2
    = {| text := JsonItems [Examples.A; Examples.B]; isError := false |}.
Proof.
  intros us args input. split; [reflexivity|].
  destruct (extract_saas_pricing_request (num := qnum) Examples.starts_with_https
              Examples.run_ok (Examples.items_ok [Examples.A; Examples.B])
              args input eq_refl)
    as (req & Hcalls & Hseeds & Hproxy & _ & _ & Hcap & _ & Hres).
  exists req. split_and!; [exact Hcalls|exact Hseeds|exact Hproxy|exact Hcap|].
  apply (Hres {| defaultDatasetId := "dataset-1" |}); reflexivity.
Defined.

(** The discovery scenario: one record with a [url]. *)
Lemma discover_pricing_page_witness :
  let args := VObject [("url", @VString qnum "https://x.com")] in
  let found := {| productName := None; url := Some "https://x.com/pricing";
                  tiers := None |} in
  DiscoverPricingInput Examples.starts_with_https args
  = Ok {| d_url := "https://x.com" |} /\
  exists req,
    actor_calls
      (call_tool Examples.starts_with_https Examples.run_ok
         (Examples.items_ok [found]) "discover_pricing_page" args).1 = [req] /\
    startUrls req = [{| seed_url := "https://x.com" |}] /\
    maxRequestsPerCrawl req = Some 5 /\
    (call_tool Examples.starts_with_https Examples.run_ok
       (Examples.items_ok [found]) "discover_pricing_page" args).2
    = {| text := Plain "Found pricing page: https://x.com/pricing";
         isError := false |}.
Proof.
  intros args found. split; [reflexivity|].
  destruct (discover_pricing_page_request (num := qnum) Examples.starts_with_https
              Examples.run_ok (Examples.items_ok [found]) args
              {| d_url := "https://x.com" |} eq_refl)
    as (req & Hcalls & Hseeds & _ & Hcap & _ & _ & _ & Hres).
  exists req. split_and!; [exact Hcalls|exact Hseeds|exact Hcap|].
  rewrite (Hres {| defaultDatasetId := "dataset-1" |} [found]); reflexivity.
Defined.

(** Prices 10, 5, none, 10, 5: the cheapest costs 5, the most expensive
    10. *)
Lemma summary_consistent_witness :
  let items := [Examples.A; Examples.B; Examples.C; Examples.D; Examples.E] in
  cheapest (compare items None).1 = Some 1 /\
  mostExpensive (compare items None).1 = Some 0 /\
  exists vi vj,
    price_at (compare items None).2 1 = Some vi /\
    price_at (compare items None).2 0 = Some vj /\
    positive vi = true /\ positive vj = true /\ nlt vj vi = false.
Proof.
  intros items.
  destruct (summary_consistent (num := qnum) items None) as [_ H].
  split_and!; [reflexivity|reflexivity|].
  exact (H 1 0 eq_refl eq_refl).
Defined.

(** * The handler on any dataset *)

(** ** Records and the items that throw *)

Section ServerItems.
Context {num : Type} `{!JSNumber num}.
Implicit Types (l : list (TierEntry num)) (ts : list (@Tier num)).
Implicit Types (items : list (Item num)) (recs : list (@ExtractionRecord num)).

Lemma some_free_objects ts :
  Server.some_free (TierObject <$> ts) = Ok (existsb is_free ts).
Proof.
  induction ts as [|t ts IH]; [done|]. rewrite fmap_cons. simpl.
  by destruct (is_free t).
Qed.

Lemma filter_paid_objects ts :
  Server.filter_paid (TierObject <$> ts) = Ok (List.filter is_paid ts).
Proof.
  induction ts as [|t ts IH]; [done|]. rewrite fmap_cons. simpl.
  by rewrite IH.
Qed.

Lemma objects_TierObject ts : Server.objects (TierObject <$> ts) = ts.
Proof.
  unfold Server.objects. induction ts as [|t ts IH]; [done|].
  rewrite fmap_cons. cbn. f_equal. exact IH.
Qed.

(** [filter] goes through exactly when no element is [null]. *)
Lemma filter_paid_Ok l paid :
  Server.filter_paid l = Ok paid -> l = TierObject <$> Server.objects l.
Proof.
  revert paid. induction l as [|[|t] l IH]; intros paid; simpl; [done|done|].
  destruct (Server.filter_paid l) as [paid'|] eqn:Hl; [|done]. intros _.
  unfold Server.objects in *. cbn. f_equal. by eapply IH.
Qed.

Lemma filter_paid_Throw l e : Server.filter_paid l = Throw e -> e = TypeError.
Proof.
  induction l as [|[|t] l IH]; simpl; [done|congruence|].
  destruct (Server.filter_paid l); [done|]. intros [= <-]. by apply IH.
Qed.

Lemma some_free_Throw l e : Server.some_free l = Throw e -> e = TypeError.
Proof.
  induction l as [|[|t] l IH]; simpl; [done|congruence|].
  by destruct (is_free t).
Qed.

(** On a record the object literal is the one of [product_of]. *)
Lemma product_of_item_of (r : @ExtractionRecord num) :
  Server.product_of (item_of r) = Ok (product_of r).
Proof.
  destruct r as [n u [ts|]]; unfold item_of, product_of; simpl; [|done].
  rewrite some_free_objects, filter_paid_objects, objects_TierObject.
  by rewrite length_fmap.
Qed.

Lemma product_of_Ok (item : Item num) p :
  Server.product_of item = Ok p -> exists r, item = item_of r.
Proof.
  destruct item as [|n u [|l|]]; simpl; try done.
  - intros _. by exists {| productName := n; url := u; tiers := None |}.
  - destruct (Server.some_free l); [|done].
    destruct (Server.filter_paid l) as [paid|] eqn:Hl; [|done]. intros _.
    exists {| productName := n; url := u; tiers := Some (Server.objects l) |}.
    unfold item_of. simpl. f_equal. f_equal. by eapply filter_paid_Ok.
Qed.

Lemma product_of_Throw (item : Item num) e :
  Server.product_of item = Throw e -> e = TypeError.
Proof.
  destruct item as [|n u [|l|]]; simpl; try congruence.
  destruct (Server.some_free l) eqn:Hs; [|intros [= <-]; by eapply some_free_Throw].
  destruct (Server.filter_paid l) eqn:Hf; [done|].
  intros [= <-]. by eapply filter_paid_Throw.
Qed.

Lemma products_of_item_of recs :
  Server.products_of (item_of <$> recs) = Ok (product_of <$> recs).
Proof.
  induction recs as [|r recs IH]; [done|]. rewrite !fmap_cons.
  cbn [Server.products_of]. by rewrite product_of_item_of, IH.
Qed.

Lemma products_of_Ok items ps :
  Server.products_of items = Ok ps -> exists recs, items = item_of <$> recs.
Proof.
  revert ps. induction items as [|item items IH]; intros ps; simpl.
  - intros _. by exists [].
  - destruct (Server.product_of item) as [p|] eqn:Hp; [|done].
    destruct (Server.products_of items) as [ps'|] eqn:Hps; [|done]. intros _.
    apply product_of_Ok in Hp as [r ->]. destruct (IH ps' eq_refl) as [recs ->].
    by exists (r :: recs).
Qed.

Lemma products_of_Throw items e :
  Server.products_of items = Throw e -> e = TypeError.
Proof.
  induction items as [|item items IH]; simpl; [done|].
  destruct (Server.product_of item) eqn:Hp;
    [|intros [= <-]; by eapply product_of_Throw].
  destruct (Server.products_of items); [done|]. intros [= <-]. by apply IH.
Qed.

Lemma alloc_all_alloc_map recs (h : list (@Product num)) :
  Server.alloc_all (product_of <$> recs) h = alloc_map recs h.
Proof.
  revert h. induction recs as [|r recs IH]; intros h; [done|].
  rewrite fmap_cons. simpl. by rewrite IH.
Qed.

(** On a dataset of records the comparison is the one of [compare]. *)
Lemma compare_result_item_of recs teamSize :
  Server.compare_result (item_of <$> recs) teamSize
  = Ok (compare_result recs teamSize).
Proof.
  unfold Server.compare_result, Server.compare, compare_result, compare.
  rewrite products_of_item_of, alloc_all_alloc_map.
  by destruct (alloc_map recs []).
Qed.

(** Building the comparison throws exactly on a dataset that is not made
    of records, and what it throws is a [TypeError]. *)
Lemma compare_result_Throw items teamSize e :
  Server.compare_result items teamSize = Throw e <->
  e = TypeError /\ forall recs, items <> item_of <$> recs.
Proof.
  split.
  - unfold Server.compare_result, Server.compare.
    destruct (Server.products_of items) as [ps|e'] eqn:Hps.
    { by destruct (Server.alloc_all ps []). }
    intros [= <-]. split; [by eapply products_of_Throw|].
    intros recs ->. by rewrite products_of_item_of in Hps.
  - intros [-> Hrecs].
    destruct (Server.compare_result items teamSize) as [r|e] eqn:Hr.
    + exfalso. unfold Server.compare_result, Server.compare in Hr.
      destruct (Server.products_of items) as [ps|] eqn:Hps; [|done].
      apply products_of_Ok in Hps as [recs ->]. by eapply Hrecs.
    + f_equal. unfold Server.compare_result, Server.compare in Hr.
      destruct (Server.products_of items) as [ps|e'] eqn:Hps.
      { by destruct (Server.alloc_all ps []). }
      simplify_eq. by eapply products_of_Throw.
Qed.

End ServerItems.

(** ** The handler *)

Section ServerHandler.
Context {num : Type} `{!JSNumber num}.
Variable is_url : string -> bool.
Variable is_number : num -> bool.
Variable actor_call : ActorInput -> remote Run.
Implicit Types (fields : list (string * value num)) (args : value num).

Lemma server_handle_eq {I : Type} (listItems : string -> remote (list (Item num)))
    (parse : result I) (request : I -> ActorInput)
    (respond : I -> list (Item num) -> result (Text num)) :
  Server.handle actor_call listItems parse request respond
  = match parse with
    | Throw e => ([], caught e)
    | Ok input =>
        match actor_call (request input) with
        | Failed m =>
            ([ActorCall ACTOR_ID (request input)], caught (ExtractionError m))
        | Done run =>
            ([ActorCall ACTOR_ID (request input);
              DatasetListItems (defaultDatasetId run)],
             match listItems (defaultDatasetId run) with
             | Failed m => caught (ExtractionError m)
             | Done items =>
                 match respond input items with
                 | Ok t => returned t
                 | Throw e => caught e
                 end
             end)
        end
    end.
Proof.
  unfold Server.handle, Server.run_actor. destruct parse as [input|e]; [|done].
  destruct (actor_call (request input)) as [run|m]; [|done].
  destruct (listItems (defaultDatasetId run)) as [items|m]; [|done].
  by destruct (respond input items).
Qed.

Lemma server_parse_teamSize_accepted (v : value num) :
  (forall n, v = VNumber n -> is_number n = true) ->
  Server.parse_teamSize is_number v = parse_teamSize v.
Proof.
  intros Hv. destruct v as [| | |n| | |]; simpl; try done.
  by rewrite (Hv n eq_refl).
Qed.

Lemma server_discover_text_item_of (recs : list (@ExtractionRecord num)) requested :
  Server.discover_text (item_of <$> recs) requested = discover_text recs requested.
Proof.
  destruct recs as [|[n [u|] ts] recs]; done.
Qed.

(** On datasets of records, and with a [teamSize] that passes zod's test
    when it is a number, the handler is [call_tool]. *)
Lemma call_tool_refines
    (listItems : string -> remote (list (@ExtractionRecord num))) name args :
  (forall fields n,
     args = VObject fields -> get fields "teamSize" = VNumber n ->
     is_number n = true) ->
  Server.call_tool is_url is_number actor_call
    (fun id => dataset_of (listItems id)) name args
  = ((call_tool is_url actor_call listItems name args).1,
     as_dataset (call_tool is_url actor_call listItems name args).2).
Proof.
  intros Hnumber.
  assert (Hparse : Server.ComparePricingInput is_url is_number args
                   = ComparePricingInput is_url args).
  { destruct args as [| | | | | |fields]; try done. simpl.
    rewrite server_parse_teamSize_accepted; [done|].
    intros n Hn. by eapply Hnumber. }
  unfold Server.call_tool, call_tool.
  destruct (String.eqb name "extract_saas_pricing").
  { rewrite server_handle_eq, handle_eq.
    destruct (ExtractPricingInput is_url args) as [input|e]; [|done].
    destruct (actor_call (extract_request input)) as [run|m]; [|done].
    by destruct (listItems (defaultDatasetId run)). }
  destruct (String.eqb name "compare_saas_pricing").
  { rewrite server_handle_eq, handle_eq, Hparse.
    destruct (ComparePricingInput is_url args) as [input|e]; [|done].
    destruct (actor_call (compare_request input)) as [run|m]; [|done].
    destruct (listItems (defaultDatasetId run)) as [recs|m]; [|done].
    simpl. by rewrite compare_result_item_of. }
  destruct (String.eqb name "discover_pricing_page"); [|done].
  rewrite server_handle_eq, handle_eq.
  destruct (DiscoverPricingInput is_url args) as [input|e]; [|done].
  destruct (actor_call (discover_request input)) as [run|m]; [|done].
  destruct (listItems (defaultDatasetId run)) as [recs|m]; [|done].
  simpl. by rewrite server_discover_text_item_of.
Qed.

(** X2: [ComparePricingInput.parse] succeeds exactly on an object whose
    [urls] is an array of well-formed URLs and whose [teamSize] is absent
    or a number that passes zod's test of a number (zero and negative
    numbers are not told apart from the others; [null], numeric strings
    and the numbers zod refuses are rejected). *)
Theorem ComparePricingInput_accepts args (input : ComparePricing num) :
  Server.ComparePricingInput is_url is_number args = Ok input <->
  exists fields, args = VObject fields /\
    get fields "urls" = VArray (VString <$> c_urls input) /\
    Forall (fun u => is_url u = true) (c_urls input) /\
    (get fields "teamSize" = VUndefined /\ c_teamSize input = None \/
     exists n, get fields "teamSize" = VNumber n /\ is_number n = true /\
       c_teamSize input = Some n).
Proof.
  destruct input as [us t]. simpl. split.
  - destruct args as [| | | | | |fields]; simpl; try done.
    destruct (parse_url_array is_url (get fields "urls")) as [us'|] eqn:Hus;
      [|done].
    destruct (Server.parse_teamSize is_number (get fields "teamSize"))
      as [t'|] eqn:Ht; [|done].
    intros [= -> ->]. apply parse_url_array_accepts in Hus as [Hus Hall].
    exists fields. split_and!; [done|done|done|].
    destruct (get fields "teamSize") as [| | |n| | |]; simpl in Ht; try done.
    + left. split; congruence.
    + right. exists n. destruct (is_number n); [|done]. split_and!; congruence.
  - intros (fields & -> & Hus & Hall & Ht). simpl.
    assert (parse_url_array is_url (get fields "urls") = Ok us) as ->
      by (by apply parse_url_array_accepts).
    destruct Ht as [[-> ->]|(n & -> & Hn & ->)]; simpl; [done|].
    by rewrite Hn.
Qed.

End ServerHandler.

Section ServerOutcome.
Context {num : Type} `{!JSNumber num}.
Variable is_url : string -> bool.
Variable is_number : num -> bool.
Variable actor_call : ActorInput -> remote Run.
Variable listItems : string -> remote (list (Item num)).
Implicit Types (fields : list (string * value num)) (args : value num).

Local Abbreviation call := (Server.call_tool is_url is_number actor_call listItems).

(** X4: Whatever the tool name, the arguments and the dataset, the handler
    calls the actor at most once, always the actor [ACTOR_ID], and lists a
    dataset only after a run that succeeded, and then the dataset of that
    run.  When it makes no call the result is an error; when the actor
    call or the listing fails, the result is an error carrying the
    message of the failure.  When both succeed the result is an error in
    one case only: [compare_saas_pricing] on a dataset that is not made
    of records (a [null] item, a [tiers] that is neither absent nor an
    array, a [null] tier), where building the comparison throws. *)
Theorem call_tool_outcome (name : string) args :
  let out := call name args in
  (out.1 = [] /\ isError out.2 = true) \/
  (exists input m,
     out.1 = [ActorCall ACTOR_ID input] /\
     actor_call input = Failed m /\ out.2 = caught (ExtractionError m)) \/
  (exists input run,
     out.1 = [ActorCall ACTOR_ID input; DatasetListItems (defaultDatasetId run)] /\
     actor_call input = Done run /\
     ((exists m, listItems (defaultDatasetId run) = Failed m /\
         out.2 = caught (ExtractionError m)) \/
      (exists items, listItems (defaultDatasetId run) = Done items /\
         ((name = "compare_saas_pricing" /\
           (forall recs, items <> item_of <$> recs) /\
           out.2 = caught TypeError) \/
          ((name <> "compare_saas_pricing" \/ exists recs, items = item_of <$> recs) /\
           isError out.2 = false))))).
Proof.
  cbv zeta. unfold Server.call_tool.
  destruct (String.eqb name "extract_saas_pricing") eqn:E1.
  { apply String.eqb_eq in E1 as ->. rewrite server_handle_eq.
    destruct (ExtractPricingInput is_url args) as [input|e]; [|by left].
    right. destruct (actor_call (extract_request input)) as [run|m] eqn:Hcall;
      [right|left; eauto].
    exists (extract_request input), run. split_and!; [done|done|].
    destruct (listItems (defaultDatasetId run)) as [items|m]; [right|left; eauto].
    exists items. split; [done|]. right. split; [by left|done]. }
  destruct (String.eqb name "compare_saas_pricing") eqn:E2.
  { apply String.eqb_eq in E2 as ->. rewrite server_handle_eq.
    destruct (Server.ComparePricingInput is_url is_number args) as [input|e];
      [|by left].
    right. destruct (actor_call (compare_request input)) as [run|m] eqn:Hcall;
      [right|left; eauto].
    exists (compare_request input), run. split_and!; [done|done|].
    destruct (listItems (defaultDatasetId run)) as [items|m]; [right|left; eauto].
    exists items. split; [done|].
    destruct (Server.compare_result items (c_teamSize input)) as [r|e] eqn:Hr.
    - right. split; [|done]. right.
      unfold Server.compare_result, Server.compare in Hr.
      destruct (Server.products_of items) as [ps|] eqn:Hps; [|done].
      by eapply products_of_Ok.
    - left. apply compare_result_Throw in Hr as [-> Hrecs]. by split_and!. }
  apply String.eqb_neq in E2.
  destruct (String.eqb name "discover_pricing_page") eqn:E3; [|by left].
  rewrite server_handle_eq.
  destruct (DiscoverPricingInput is_url args) as [input|e]; [|by left].
  right. destruct (actor_call (discover_request input)) as [run|m] eqn:Hcall;
    [right|left; eauto].
  exists (discover_request input), run. split_and!; [done|done|].
  destruct (listItems (defaultDatasetId run)) as [items|m]; [right|left; eauto].
  exists items. split; [done|]. right. split; [by left|done].
Qed.

End ServerOutcome.

Section ServerAggregator.
Context {num : Type} `{!JSNumber num} `{!JSNumberLaws num}.
Variable is_url : string -> bool.
Variable is_number : num -> bool.
Variable actor_call : ActorInput -> remote Run.
Variable listItems : string -> remote (list (Item num)).
Implicit Types (items : list (@ExtractionRecord num)) (teamSize : option num).
Implicit Types (fields : list (string * value num)).

(** C8: when the dataset is made of extraction records, whatever fields
    they lack, building the comparison throws nothing: the handler
    returns a [ComparisonResult] and no error, with one product per
    record.  A record without [tiers] gives [tierCount] 0, a
    [hasFreeTier] that is not [true], no [lowestPaidPrice] and no
    [estimatedTeamCost]; tiers without [pricing] give no free tier and no
    team cost; tiers without [normalizedMonthlyPrice] give no
    [lowestPaidPrice].  (On a dataset that is not made of records the
    handler does reach its [catch]: [call_tool_outcome].) *)
Theorem aggregator_total fields us teamSize run items :
  parse_url_array is_url (get fields "urls") = Ok us ->
  Server.parse_teamSize is_number (get fields "teamSize") = Ok teamSize ->
  actor_call (compare_request {| c_urls := us; c_teamSize := teamSize |}) = Done run ->
  listItems (defaultDatasetId run) = Done (item_of <$> items) ->
  exists r,
    (Server.call_tool is_url is_number actor_call listItems
       "compare_saas_pricing" (VObject fields)).2
    = {| text := JsonComparison r; isError := false |} /\
    length (r_products r) = length items /\
    r_withFreeTier r
    = productName <$>
        List.filter (fun item => default false (existsb is_free <$> tiers item)) items /\
    (forall i item, items !! i = Some item ->
       exists p, r_products r !! i = Some p /\
         p_name p = productName item /\ p_url p = url item /\
         p_tiers p = tiers item /\
         tierCount p = default 0 (length <$> tiers item) /\
         (tiers item = None ->
            tierCount p = 0 /\ hasFreeTier p <> Some true /\
            lowestPaidPrice p = None /\ estimatedTeamCost p = None) /\
         (forall l, tiers item = Some l ->
            Forall (fun t => pricing t = None) l ->
            hasFreeTier p = Some false /\
            estimatedTeamCost p = if truthy teamSize then Some [] else None) /\
         (forall l, tiers item = Some l ->
            Forall (fun t => normalizedMonthlyPrice t = None) l ->
            lowestPaidPrice p = None)).
Proof.
  intros Hus Hts Hrun Hitems. exists (compare_result items teamSize).
  split_and!.
  - unfold Server.call_tool. simpl. rewrite server_handle_eq.
    unfold Server.ComparePricingInput. rewrite Hus, Hts, Hrun, Hitems.
    simpl. by rewrite compare_result_item_of.
  - by rewrite compare_result_products, length_fmap.
  - apply withFreeTier_correct.
  - intros i item Hi. eexists. split; [by apply compare_result_lookup|].
    assert (Hcount : or_0 (length <$> tiers item) = default 0 (length <$> tiers item)).
    { destruct (tiers item) as [l|]; simpl; [|done]. by destruct l. }
    assert (Hfree : forall l, Forall (fun t : @Tier num => pricing t = None) l ->
              existsb is_free l = false /\ List.filter is_per_user l = []).
    { intros l Hl. induction Hl as [|t l Ht _ [IH1 IH2]]; [done|]. simpl.
      unfold is_free, is_per_user in *. by rewrite Ht, IH1, IH2. }
    assert (Hpaid : forall l,
              Forall (fun t : @Tier num => normalizedMonthlyPrice t = None) l ->
              lowest_paid_price (Some l) = None).
    { intros l Hl. apply lowest_paid_price_None. intros ? t [= <-] Ht.
      rewrite Forall_forall in Hl. unfold is_paid. rewrite (Hl t Ht).
      apply positive_NaN. }
    set (q := if truthy teamSize
              then assign_team_cost (ToNumber teamSize) (product_of item)
              else product_of item).
    assert (Hq1 : p_name q = productName item /\ p_url q = url item /\
                  p_tiers q = tiers item /\
                  tierCount q = or_0 (length <$> tiers item))
      by (unfold q; by destruct (truthy teamSize)).
    assert (Hq2 : hasFreeTier q = existsb is_free <$> tiers item)
      by (unfold q; by destruct (truthy teamSize)).
    assert (Hq3 : lowestPaidPrice q = lowest_paid_price (tiers item))
      by (unfold q; by destruct (truthy teamSize)).
    assert (Hq4 : estimatedTeamCost q
                  = if truthy teamSize
                    then (fun l => team_cost (ToNumber teamSize)
                                     <$> List.filter is_per_user l) <$> tiers item
                    else None)
      by (unfold q; by destruct (truthy teamSize)).
    destruct Hq1 as (-> & -> & -> & ->). rewrite Hq2, Hq3, Hq4, Hcount.
    split_and!; [done..| | |].
    + intros ->. split_and!; [done|done|done|]. by destruct (truthy teamSize).
    + intros l -> Hl. destruct (Hfree l Hl) as [Hex Hper].
      cbn [fmap option_fmap option_map]. by rewrite Hex, Hper.
    + intros l -> Hl. by apply Hpaid.
Qed.

End ServerAggregator.

(** ** The handler on sample datasets *)

(** Four records, one without [tiers] and one whose only tier has neither
    [pricing] nor a price: four products and no error. *)
Lemma aggregator_total_witness :
  let fields := [("urls", VArray [VString "https://a.com/pricing"]);
                 ("teamSize", VNumber (int 10))] in
  let us := ["https://a.com/pricing"] in
  let run := {| defaultDatasetId := "dataset-1" |} in
  let F := Examples.product "f" (Some [Examples.enterprise]) in
  let items := [Examples.A; Examples.B; Examples.C; F] in
  parse_url_array Examples.starts_with_https (get fields "urls") = Ok us /\
  Server.parse_teamSize ServerExamples.is_number (get fields "teamSize")
  = Ok (Some (int 10)) /\
  Examples.run_ok (compare_request {| c_urls := us; c_teamSize := Some (int 10) |})
  = Done run /\
  ServerExamples.items_ok (item_of <$> items) (defaultDatasetId run)
  = Done (item_of <$> items) /\
  exists r pc pf,
    (Server.call_tool Examples.starts_with_https ServerExamples.is_number
       Examples.run_ok (ServerExamples.items_ok (item_of <$> items))
       "compare_saas_pricing" (VObject fields)).2
    = {| text := JsonComparison r; isError := false |} /\
    length (r_products r) = 4 /\
    r_withFreeTier r = [Some "a"] /\
    r_products r !! 2 = Some pc /\
    tierCount pc = 0 /\ hasFreeTier pc <> Some true /\
    lowestPaidPrice pc = None /\ estimatedTeamCost pc = None /\
    r_products r !! 3 = Some pf /\
    tierCount pf = 1 /\ hasFreeTier pf = Some false /\
    lowestPaidPrice pf = None /\ estimatedTeamCost pf = Some [].
Proof.
  intros fields us run F items. split_and!; [reflexivity..|].
  destruct (aggregator_total (num := qnum) Examples.starts_with_https
              ServerExamples.is_number Examples.run_ok
              (ServerExamples.items_ok (item_of <$> items)) fields us
              (Some (int 10)) run items eq_refl eq_refl eq_refl eq_refl)
    as (r & Hr & Hlen & Hfree & Hprod).
  destruct (Hprod 2 Examples.C eq_refl)
    as (pc & Hpc & _ & _ & _ & _ & Habsent & _ & _).
  destruct (Habsent eq_refl) as (Hc1 & Hc2 & Hc3 & Hc4).
  destruct (Hprod 3 F eq_refl)
    as (pf & Hpf & _ & _ & _ & Hcount & _ & Hpricing & Hprice).
  assert (Hall1 : Forall (fun t : @Tier qnum => pricing t = None) [Examples.enterprise])
    by (by repeat constructor).
  assert (Hall2 : Forall (fun t : @Tier qnum => normalizedMonthlyPrice t = None)
                    [Examples.enterprise])
    by (by repeat constructor).
  destruct (Hpricing _ eq_refl Hall1) as [Hf1 Hf2].
  pose proof (Hprice _ eq_refl Hall2) as Hf3.
  exists r, pc, pf. split_and!; try done.
Defined.

(** A [null] tier behind a free one: [some] stops before it, [filter]
    reaches it, and the result is an error although both remote calls
    succeeded; [extract_saas_pricing] returns the same dataset as it
    is. *)
Example null_tier_reaches_the_catch :
  let dataset := [item_of Examples.A; ServerExamples.broken] in
  (Server.call_tool Examples.starts_with_https ServerExamples.is_number
     Examples.run_ok (ServerExamples.items_ok dataset) "compare_saas_pricing"
     (Examples.args_urls ["https://a.com/pricing"])).2
  = {| text := ErrorMessage TypeError; isError := true |} /\
  (Server.call_tool Examples.starts_with_https ServerExamples.is_number
     Examples.run_ok (ServerExamples.items_ok dataset) "extract_saas_pricing"
     (Examples.args_urls ["https://a.com/pricing"])).2
  = {| text := JsonDataset dataset; isError := false |}.
Proof. split; reflexivity. Qed.

(** A [teamSize] that zod refuses is a validation error, before any
    call. *)
Example refused_teamSize_rejected :
  Server.call_tool Examples.starts_with_https ServerExamples.is_number
    Examples.run_ok (ServerExamples.items_ok []) "compare_saas_pricing"
    (VObject [("urls", VArray [VString "https://a.com/pricing"]);
              ("teamSize", VNumber QNaN)])
  = ([], {| text := ErrorMessage ValidationError; isError := true |}).
Proof. reflexivity. Qed.
